(** * blockshare: the ledger node's request handlers

    A shallow embedding of
      - [server/src/utils/cryptoUtils.js]   (module [CryptoUtils]) and
      - [server/src/controllers/blockchainController.js] (module [Controller]),
    with the fragment of JavaScript they run on (module [Js]), Node's
    SHA-256 digest (module [Sha256]) and the two JSON files they keep
    (module [Node]).  The properties of the handlers follow the definitions. *)

From Stdlib Require Import ZArith List String Ascii Bool Lia DecimalString.
Import ListNotations.
Set Warnings "-register-all".
Local Open Scope string_scope.
Local Open Scope list_scope.
Local Open Scope Z_scope.

(* ================================================================== *)
(** ** Outcomes of an expression *)

(** What a JavaScript evaluation can end in: a value, an exception, or a
    step that leaves the fragment of the language described here
    ([Outside]); nothing is claimed about a run that ends [Outside], and a
    [try]/[catch] does not turn it into a value. *)

Inductive Exn : Type :=
| TypeError
| SyntaxError
| ReferenceError (ident : string)
| SystemError.

Inductive Res (A : Type) : Type :=
| Ret (a : A)
| Throw (e : Exn)
| Outside.

Arguments Ret {A} a.
Arguments Throw {A} e.
Arguments Outside {A}.

Definition res_bind {A B : Type} (r : Res A) (k : A -> Res B) : Res B :=
  match r with
  | Ret a => k a
  | Throw e => Throw e
  | Outside => Outside
  end.

(* ================================================================== *)
(** ** The JavaScript values of the handlers *)

Module Js.

(** [JNum z] is the number (a double) of integer value [z]; [-0] is
    identified with [0] (no operation used by the handlers tells them
    apart), and a number that is not an integer, or not finite, has no
    [JNum].  Arithmetic rounds as doubles do ([round_to_double]); only the
    safe integers (below 2^53 in absolute value) are printed, in decimal,
    the string form of a larger number being [Outside].  Strings are byte
    strings, read as UTF-8.  [JFunction] stands for an object that is not
    data: a built-in reached through [Object.prototype], or a closure. *)
Inductive JsVal : Type :=
| JUndefined
| JNull
| JBool (b : bool)
| JNum (n : Z)
| JNaN
| JStr (s : string)
| JArr (elems : list JsVal)
| JObj (props : list (string * JsVal))
| JFunction (name : string).

(** ToBoolean, as [!x] and [if (x)] apply it. *)
Definition truthy (v : JsVal) : bool :=
  match v with
  | JUndefined | JNull | JNaN => false
  | JBool b => b
  | JNum n => negb (n =? 0)%Z
  | JStr s => negb (s =? "")%string
  | JArr _ | JObj _ | JFunction _ => true
  end.

(** [a || b]. *)
Definition js_or (a b : JsVal) : JsVal := if truthy a then a else b.

(** [a === b].  Two objects are equal when they are the same reference; in
    the handlers the two sides of [===] never are (one side is a fresh
    primitive or comes from another parse), so objects compare unequal. *)
Definition strict_eq (a b : JsVal) : bool :=
  match a, b with
  | JUndefined, JUndefined => true
  | JNull, JNull => true
  | JBool x, JBool y => Bool.eqb x y
  | JNum x, JNum y => (x =? y)%Z
  | JStr x, JStr y => (x =? y)%string
  | _, _ => false
  end.

(** Own property of an object literal or of a parsed JSON object. *)
Fixpoint own (props : list (string * JsVal)) (k : string) : option JsVal :=
  match props with
  | [] => None
  | (k', v) :: rest => if (k' =? k)%string then Some v else own rest k
  end.

(** The properties every plain object inherits from [Object.prototype]. *)
Definition object_prototype_names : list string :=
  [ "constructor"; "hasOwnProperty"; "isPrototypeOf"; "propertyIsEnumerable";
    "toLocaleString"; "toString"; "valueOf"; "__proto__";
    "__defineGetter__"; "__defineSetter__"; "__lookupGetter__";
    "__lookupSetter__" ].

Definition inherited (k : string) : bool :=
  existsb (fun n => (n =? k)%string) object_prototype_names.

Definition get_of_object (props : list (string * JsVal)) (k : string) : JsVal :=
  match own props k with
  | Some v => v
  | None => if inherited k then JFunction k else JUndefined
  end.

(** Decimal digits of an integer, as ToString prints a safe integer. *)
Definition decimal (z : Z) : string := NilZero.string_of_int (Z.to_int z).

(** [Number.isSafeInteger]: the integers below 2^53 in absolute value.
    ToString prints them digit for digit; from 2^53 on it prints the
    shortest digits that read back as the same double, and from 10^21 on
    in exponent form. *)
Definition safe_integer (z : Z) : bool := Z.abs z <? 2 ^ 53.

(** The double nearest to an integer: 53 significant bits, ties to the
    even significand.  (The exponent is not bounded here: a magnitude of
    2^1024 or more is [Infinity] in JavaScript, which has no [JNum].) *)
Definition round_to_double (z : Z) : Z :=
  let a := Z.abs z in
  if a <? 2 ^ 53 then z
  else
    let e := Z.log2 a - 52 in
    let q := Z.shiftr a e in
    let rest := a - Z.shiftl q e in
    let half := Z.shiftl 1 (e - 1) in
    let q' := if (half <? rest) || ((rest =? half) && Z.odd q) then q + 1 else q in
    Z.sgn z * Z.shiftl q' e.

Definition join_sep (first : bool) : string := if first then "" else ",".

(** ToString, as a template literal and [+] apply it.  A parsed JSON object
    has no callable property of its own, so an own [toString] hides the
    inherited one and the conversion throws; an array is joined with
    commas, [null] and [undefined] elements printing as nothing. *)
Fixpoint to_string (v : JsVal) : Res string :=
  match v with
  | JUndefined => Ret "undefined"
  | JNull => Ret "null"
  | JBool true => Ret "true"
  | JBool false => Ret "false"
  | JNum n => if safe_integer n then Ret (decimal n) else Outside
  | JNaN => Ret "NaN"
  | JStr s => Ret s
  | JArr elems =>
      (fix join (first : bool) (l : list JsVal) : Res string :=
         match l with
         | [] => Ret ""
         | e :: l' =>
             res_bind
               (match e with
                | JUndefined | JNull => Ret ""
                | _ => to_string e
                end)
               (fun s => res_bind (join false l')
                  (fun t => Ret (join_sep first ++ s ++ t)%string))
         end) true elems
  | JObj props =>
      match own props "toString" with
      | Some _ => Throw TypeError
      | None => Ret "[object Object]"
      end
  | JFunction _ => Outside
  end.

(** ToPrimitive: an object or array becomes its string. *)
Definition to_primitive (v : JsVal) : Res JsVal :=
  match v with
  | JArr _ | JObj _ | JFunction _ => res_bind (to_string v) (fun s => Ret (JStr s))
  | _ => Ret v
  end.

(** ToNumber of a primitive that is not a string: [None] for NaN. *)
Definition to_number (v : JsVal) : option Z :=
  match v with
  | JNull => Some 0
  | JBool b => Some (if b then 1 else 0)
  | JNum n => Some n
  | _ => None
  end.

Definition is_string (v : JsVal) : bool :=
  match v with JStr _ => true | _ => false end.

(** [a + b]: concatenation as soon as one side is a string once made
    primitive, the sum of the two numbers otherwise, rounded to a
    double. *)
Definition js_add (a b : JsVal) : Res JsVal :=
  res_bind (to_primitive a) (fun pa =>
  res_bind (to_primitive b) (fun pb =>
    if is_string pa || is_string pb then
      res_bind (to_string pa) (fun sa =>
      res_bind (to_string pb) (fun sb => Ret (JStr (sa ++ sb)%string)))
    else
      match to_number pa, to_number pb with
      | Some x, Some y => Ret (JNum (round_to_double (x + y)))
      | _, _ => Ret JNaN
      end)).

(** [a > k] for a number literal [k].  A string operand would need the
    numeric value of its text, which is [Outside]. *)
Definition js_gt_num (a : JsVal) (k : Z) : Res bool :=
  res_bind (to_primitive a) (fun pa =>
    match pa with
    | JStr s => if (s =? "[object Object]")%string then Ret false else Outside
    | _ => match to_number pa with
           | Some x => Ret (k <? x)
           | None => Ret false
           end
    end).

(** [o[k]] for a computed key.  On a plain object: the own property, else
    the inherited one, else [undefined]; on [null] and [undefined] a
    TypeError.  Keyed access to arrays and primitives is [Outside]. *)
Definition js_index (o k : JsVal) : Res JsVal :=
  match o with
  | JUndefined | JNull => Throw TypeError
  | JObj props => res_bind (to_string k) (fun key => Ret (get_of_object props key))
  | _ => Outside
  end.

(** [o.name] for an identifier [name] that no built-in prototype other
    than [Object.prototype] defines and that is neither an index nor
    [length]: the fields the handlers read ([nonce], [public_key], the
    fields of a request body). *)
Definition js_field (o : JsVal) (name : string) : Res JsVal :=
  match o with
  | JUndefined | JNull => Throw TypeError
  | JObj props => Ret (get_of_object props name)
  | _ => Ret JUndefined
  end.

Definition seven_bit (s : string) : bool :=
  forallb (fun c => (nat_of_ascii c <? 128)%nat) (list_ascii_of_string s).

(** [o.length]. *)
Definition js_length (o : JsVal) : Res JsVal :=
  match o with
  | JUndefined | JNull => Throw TypeError
  | JArr elems => Ret (JNum (Z.of_nat (List.length elems)))
  | JStr s => if seven_bit s then Ret (JNum (Z.of_nat (String.length s))) else Outside
  | JObj props => Ret (get_of_object props "length")
  | JFunction _ => Outside
  | _ => Ret JUndefined
  end.

(** [o.push(x)], giving the array after the call.  Only an array has a
    callable [push]. *)
Definition js_push (o x : JsVal) : Res JsVal :=
  match o with
  | JArr elems => Ret (JArr (elems ++ [x]))
  | JFunction _ => Outside
  | _ => Throw TypeError
  end.

(** [arr.some(f)] on the elements of an array. *)
Fixpoint array_some (f : JsVal -> Res JsVal) (l : list JsVal) : Res bool :=
  match l with
  | [] => Ret false
  | x :: l' =>
      res_bind (f x) (fun r => if truthy r then Ret true else array_some f l')
  end.

(** *** JSON *)

(** What [JSON.parse (JSON.stringify v)] gives back: NaN, [undefined] and
    functions do not survive, they become [null] inside an array and are
    left out of an object. *)
Definition serialisable (v : JsVal) : bool :=
  match v with
  | JUndefined | JFunction _ => false
  | _ => true
  end.

Fixpoint json_image (v : JsVal) : JsVal :=
  match v with
  | JUndefined | JNaN | JFunction _ => JNull
  | JArr elems =>
      JArr ((fix each (l : list JsVal) : list JsVal :=
               match l with
               | [] => []
               | e :: l' => json_image e :: each l'
               end) elems)
  | JObj props =>
      JObj ((fix each (l : list (string * JsVal)) : list (string * JsVal) :=
               match l with
               | [] => []
               | (k, e) :: l' =>
                   if serialisable e then (k, json_image e) :: each l' else each l'
               end) props)
  | _ => v
  end.

(** The values [JSON.parse] can give. *)
Fixpoint is_json (v : JsVal) : bool :=
  match v with
  | JUndefined | JNaN | JFunction _ => false
  | JArr elems =>
      (fix all (l : list JsVal) : bool :=
         match l with
         | [] => true
         | e :: l' => is_json e && all l'
         end) elems
  | JObj props =>
      (fix all (l : list (string * JsVal)) : bool :=
         match l with
         | [] => true
         | (_, e) :: l' => is_json e && all l'
         end) props
  | _ => true
  end.

End Js.

(* ================================================================== *)
(** ** SHA-256 (FIPS 180-4), as [crypto.createHash('sha256')] computes it *)

Module Sha256.

Definition mask32 : Z := 4294967295.
Definition wrap32 (x : Z) : Z := Z.land x mask32.
Definition add32 (x y : Z) : Z := wrap32 (x + y).
Definition rotr (n x : Z) : Z :=
  Z.lor (Z.shiftr x n) (wrap32 (Z.shiftl x (32 - n))).

Definition ch (x y z : Z) : Z :=
  Z.lxor (Z.land x y) (Z.land (Z.lxor x mask32) z).
Definition maj (x y z : Z) : Z :=
  Z.lxor (Z.lxor (Z.land x y) (Z.land x z)) (Z.land y z).
Definition big_sigma0 (x : Z) : Z :=
  Z.lxor (Z.lxor (rotr 2 x) (rotr 13 x)) (rotr 22 x).
Definition big_sigma1 (x : Z) : Z :=
  Z.lxor (Z.lxor (rotr 6 x) (rotr 11 x)) (rotr 25 x).
Definition small_sigma0 (x : Z) : Z :=
  Z.lxor (Z.lxor (rotr 7 x) (rotr 18 x)) (Z.shiftr x 3).
Definition small_sigma1 (x : Z) : Z :=
  Z.lxor (Z.lxor (rotr 17 x) (rotr 19 x)) (Z.shiftr x 10).

(** Round constants: the first 32 bits of the fractional parts of the cube
    roots of the first 64 primes. *)
Definition round_constants : list Z :=
  [ 1116352408; 1899447441; 3049323471; 3921009573; 961987163; 1508970993;
    2453635748; 2870763221; 3624381080; 310598401; 607225278; 1426881987;
    1925078388; 2162078206; 2614888103; 3248222580; 3835390401; 4022224774;
    264347078; 604807628; 770255983; 1249150122; 1555081692; 1996064986;
    2554220882; 2821834349; 2952996808; 3210313671; 3336571891; 3584528711;
    113926993; 338241895; 666307205; 773529912; 1294757372; 1396182291;
    1695183700; 1986661051; 2177026350; 2456956037; 2730485921; 2820302411;
    3259730800; 3345764771; 3516065817; 3600352804; 4094571909; 275423344;
    430227734; 506948616; 659060556; 883997877; 958139571; 1322822218;
    1537002063; 1747873779; 1955562222; 2024104815; 2227730452; 2361852424;
    2428436474; 2756734187; 3204031479; 3329325298 ].

(** The eight working words, [a] to [h]. *)
Record Regs : Type := mkRegs
  { ra : Z; rb : Z; rc : Z; rd : Z; re : Z; rf : Z; rg : Z; rh : Z }.

(** Initial hash value: from the square roots of the first 8 primes. *)
Definition initial_hash : Regs :=
  mkRegs 1779033703 3144134277 1013904242 2773480762
         1359893119 2600822924 528734635 1541459225.

Fixpoint be_bytes (n : nat) (x : Z) : list Z :=
  match n with
  | O => []
  | S m => Z.land (Z.shiftr x (8 * Z.of_nat m)) 255 :: be_bytes m x
  end.

(** Padding: the bit 1, zeros up to 56 modulo 64 bytes, the bit length on
    8 bytes. *)
Definition pad (msg : list Z) : list Z :=
  let len := Z.of_nat (List.length msg) in
  msg ++ [128] ++ repeat 0 (Z.to_nat ((55 - len) mod 64)) ++ be_bytes 8 (8 * len).

Fixpoint words_of_bytes (bs : list Z) : list Z :=
  match bs with
  | b0 :: b1 :: b2 :: b3 :: rest =>
      (Z.shiftl b0 24 + Z.shiftl b1 16 + Z.shiftl b2 8 + b3) :: words_of_bytes rest
  | _ => []
  end.

(** The message schedule, newest word first: 48 words are added to the 16
    of the block. *)
Fixpoint schedule (n : nat) (rev_w : list Z) : list Z :=
  match n with
  | O => rev_w
  | S m =>
      let w := fun i => nth i rev_w 0 in
      schedule m
        (add32 (add32 (small_sigma1 (w 1%nat)) (w 6%nat))
               (add32 (small_sigma0 (w 14%nat)) (w 15%nat)) :: rev_w)
  end.

Definition round (s : Regs) (kw : Z * Z) : Regs :=
  let t1 := add32 (add32 (add32 (rh s) (big_sigma1 (re s)))
                         (add32 (ch (re s) (rf s) (rg s)) (fst kw))) (snd kw) in
  let t2 := add32 (big_sigma0 (ra s)) (maj (ra s) (rb s) (rc s)) in
  mkRegs (add32 t1 t2) (ra s) (rb s) (rc s) (add32 (rd s) t1) (re s) (rf s) (rg s).

Definition compress (h : Regs) (block : list Z) : Regs :=
  let w := rev (schedule 48 (rev block)) in
  let s := fold_left round (combine round_constants w) h in
  mkRegs (add32 (ra h) (ra s)) (add32 (rb h) (rb s)) (add32 (rc h) (rc s))
         (add32 (rd h) (rd s)) (add32 (re h) (re s)) (add32 (rf h) (rf s))
         (add32 (rg h) (rg s)) (add32 (rh h) (rh s)).

(** The blocks of 16 words, one per unit of [fuel]. *)
Fixpoint hash_blocks (fuel : nat) (h : Regs) (ws : list Z) : Regs :=
  match fuel, ws with
  | S f, _ :: _ => hash_blocks f (compress h (firstn 16 ws)) (skipn 16 ws)
  | _, _ => h
  end.

Definition digest (msg : list Z) : Regs :=
  let ws := words_of_bytes (pad msg) in
  hash_blocks (List.length ws) initial_hash ws.

Definition hex_digit (d : Z) : ascii :=
  nth (Z.to_nat d)
      (list_ascii_of_string "0123456789abcdef") "0"%char.

Fixpoint hex_of (n : nat) (x : Z) : string :=
  match n with
  | O => ""
  | S m => String (hex_digit (Z.land (Z.shiftr x (4 * Z.of_nat m)) 15)) (hex_of m x)
  end.

Definition bytes_of_string (s : string) : list Z :=
  map (fun c => Z.of_nat (nat_of_ascii c)) (list_ascii_of_string s).

(** [crypto.createHash('sha256').update(data).digest('hex')]. *)
Definition sha256_hex (data : string) : string :=
  let h := digest (bytes_of_string data) in
  (hex_of 8 (ra h) ++ hex_of 8 (rb h) ++ hex_of 8 (rc h) ++ hex_of 8 (rd h) ++
   hex_of 8 (re h) ++ hex_of 8 (rf h) ++ hex_of 8 (rg h) ++ hex_of 8 (rh h))%string.

End Sha256.

(* ================================================================== *)
(** ** The node: its two JSON files, its peer directory, its effects *)

Module Node.
Import Js.

(** The text of a file, up to what [JSON.parse] makes of it: nothing at
    all, text that is not JSON, or the text of a value ([Encodes v] is
    [JSON.stringify v], or any text that parses to the same value). *)
Inductive Text : Type :=
| Empty
| Malformed
| Encodes (v : JsVal).

Definition JSON_parse (t : Text) : Res JsVal :=
  match t with
  | Empty | Malformed => Throw SyntaxError
  | Encodes v => Ret (json_image v)
  end.

(** A file: its text when it exists, and whether the process may read it
    and may write (or create) it. *)
Record File : Type := mkFile
  { data : option Text; can_read : bool; can_write : bool }.

Inductive Path : Type := STATE_FILE | MEMPOOL_FILE.

(** What the handlers do besides answering and writing the two files. *)
Inductive Event : Type :=
| ConsoleError (msg : string)
| BroadcastTransaction (tx : JsVal)
| BroadcastBlock (block : JsVal)
| Pinged (ip port : JsVal)
| PeersSaved (peers : list JsVal)
| PeersSynced (peers : list JsVal).

Record World : Type := mkWorld
  { state_file : File;
    mempool_file : File;
    peer_store : list JsVal;
    trace : list Event }.

Definition file_at (w : World) (p : Path) : File :=
  match p with
  | STATE_FILE => state_file w
  | MEMPOOL_FILE => mempool_file w
  end.

Definition set_file (w : World) (p : Path) (f : File) : World :=
  match p with
  | STATE_FILE => mkWorld f (mempool_file w) (peer_store w) (trace w)
  | MEMPOOL_FILE => mkWorld (state_file w) f (peer_store w) (trace w)
  end.

(** *** Computations: a world in, an outcome and a world out *)

Definition M (A : Type) : Type := World -> Res A * World.

Definition ret {A : Type} (a : A) : M A := fun w => (Ret a, w).

Definition throw {A : Type} (e : Exn) : M A := fun w => (Throw e, w).

Definition lift {A : Type} (r : Res A) : M A := fun w => (r, w).

Definition bind {A B : Type} (m : M A) (k : A -> M B) : M B :=
  fun w =>
    match m w with
    | (Ret a, w') => k a w'
    | (Throw e, w') => (Throw e, w')
    | (Outside, w') => (Outside, w')
    end.

(** [try { m } catch (error) { handler }]. *)
Definition try_catch {A : Type} (m : M A) (handler : Exn -> M A) : M A :=
  fun w =>
    match m w with
    | (Throw e, w') => handler e w'
    | other => other
    end.

Definition emit (e : Event) : M unit :=
  fun w => (Ret tt, mkWorld (state_file w) (mempool_file w) (peer_store w)
                            (trace w ++ [e])).

Declare Scope node_scope.
Delimit Scope node_scope with node.
Notation "x <- m ;; k" := (bind m (fun x => k))
  (at level 61, m at next level, right associativity) : node_scope.
Notation "m ;; k" := (bind m (fun _ => k))
  (at level 61, right associativity) : node_scope.
Local Open Scope node_scope.

(** *** [fs] *)

Definition existsSync (p : Path) : M bool :=
  fun w => (Ret (match data (file_at w p) with Some _ => true | None => false end), w).

Definition readFileSync (p : Path) : M Text :=
  fun w =>
    match data (file_at w p) with
    | Some t => if can_read (file_at w p) then (Ret t, w) else (Throw SystemError, w)
    | None => (Throw SystemError, w)
    end.

Definition writeFileSync (p : Path) (t : Text) : M unit :=
  fun w =>
    let f := file_at w p in
    if can_write f
    then (Ret tt, set_file w p (mkFile (Some t) (can_read f) (can_write f)))
    else (Throw SystemError, w).

(** [JSON.stringify(v, null, 2)], for a value that has a JSON text. *)
Definition JSON_stringify (v : JsVal) : Res Text :=
  if serialisable v then Ret (Encodes v) else Outside.

Definition console_error (msg : string) : M unit := emit (ConsoleError msg).

End Node.

(* ================================================================== *)
(** ** server/src/utils/cryptoUtils.js *)

Module CryptoUtils.
Import Js Node.
Local Open Scope node_scope.

(** [ensureFileExists(filePath, initialContent = '[]')]; the callers that
    leave the second argument out pass the default here. *)
Definition default_content : Text := Encodes (JArr []).

Definition ensureFileExists (filePath : Path) (initialContent : Text) : M unit :=
  present <- existsSync filePath ;;
  if negb present then writeFileSync filePath initialContent else ret tt.

Definition loadBlockchainState : M JsVal :=
  ensureFileExists STATE_FILE (Encodes (JObj [])) ;;
  try_catch
    (text <- readFileSync STATE_FILE ;;
     lift (JSON_parse text))
    (fun error =>
       console_error "Error loading blockchain state:" ;;
       ret (JObj [])).

Definition saveBlockchainState (state : JsVal) : M unit :=
  try_catch
    (text <- lift (JSON_stringify state) ;;
     writeFileSync STATE_FILE text)
    (fun error => console_error "Error saving blockchain state:").

(** The template literal [`${sender}${recipient}${amt}${nonce}`]. *)
Definition signed_data (sender recipient amt nonce : JsVal) : Res string :=
  res_bind (to_string sender) (fun s =>
  res_bind (to_string recipient) (fun r =>
  res_bind (to_string amt) (fun a =>
  res_bind (to_string nonce) (fun n =>
    Ret (s ++ r ++ a ++ n)%string)))).

Definition verifySignature (sender recipient amt nonce sign : JsVal) : Res bool :=
  res_bind (signed_data sender recipient amt nonce) (fun data =>
    let hash := Sha256.sha256_hex data in
    Ret (strict_eq (JStr hash) sign)).

Definition verifyNonce (sender nonce : JsVal) : M bool :=
  state <- loadBlockchainState ;;
  account <- lift (js_index state sender) ;;
  if negb (truthy account) then ret false
  else
    current <- lift (js_field account "nonce") ;;
    expected <- lift (js_add current (JNum 1)) ;;
    ret (strict_eq nonce expected).

Definition addToMempool (transaction : JsVal) : M bool :=
  ensureFileExists MEMPOOL_FILE default_content ;;
  try_catch
    (text <- readFileSync MEMPOOL_FILE ;;
     mempool <- lift (JSON_parse text) ;;
     mempool <- lift (js_push mempool transaction) ;;
     text' <- lift (JSON_stringify mempool) ;;
     writeFileSync MEMPOOL_FILE text' ;;
     ret true)
    (fun error =>
       console_error "Error adding transaction to mempool:" ;;
       ret false).

Definition isMempoolFull : M bool :=
  ensureFileExists MEMPOOL_FILE default_content ;;
  try_catch
    (text <- readFileSync MEMPOOL_FILE ;;
     mempool <- lift (JSON_parse text) ;;
     len <- lift (js_length mempool) ;;
     lift (js_gt_num len 8))
    (fun error =>
       console_error "Error accessing mempool:" ;;
       ret false).

(** The body is the comment [// make]. *)
Definition clearMempool : M unit := ret tt.

Definition executeMempool : M unit := ret tt.

(** [return newBlock;] where no [newBlock] is declared anywhere. *)
Definition mineBlock : M JsVal := throw (ReferenceError "newBlock").

Definition addBlockToChain : M unit := ret tt.

(** [const balance = 0; return balance;] *)
Definition getBalanceByAddress (address : JsVal) : JsVal :=
  let balance := JNum 0 in
  balance.

End CryptoUtils.

(* ================================================================== *)
(** ** server/src/controllers/blockchainController.js *)

Module Controller.
Import Js Node CryptoUtils.
Local Open Scope node_scope.

(** [res.status(code).json(body)]. *)
Record Response : Type := mkResponse { status : Z; body : JsVal }.

Definition error_body (msg : string) : JsVal := JObj [("error", JStr msg)].
Definition message_body (msg : string) : JsVal := JObj [("message", JStr msg)].

(** Modelled from the spec: [broadcastTransaction] and [broadcastBlock] of
    utils/networkUtils.js, which is not among the sources.  Section 4.7
    makes them fire-and-forget and never a source of error for the caller:
    they are recorded in the trace and return. *)
Definition broadcastTransaction (tx : JsVal) : M unit :=
  emit (BroadcastTransaction tx).

Definition broadcastBlock (block : JsVal) : M unit :=
  emit (BroadcastBlock block).

(** Modelled from the spec: [loadPeerNodes], [savePeerNodes] of
    utils/fileUtils.js and [syncPeerDataWithOtherNodes] of
    utils/networkUtils.js, which are not among the sources.  Section 1
    gives the peer directory store simple load/save semantics over an
    ordered sequence of records; section 4.7 makes the sync best-effort. *)
Definition loadPeerNodes : M (list JsVal) :=
  fun w => (Ret (peer_store w), w).

Definition savePeerNodes (peers : list JsVal) : M unit :=
  fun w => (Ret tt, mkWorld (state_file w) (mempool_file w) peers
                            (trace w ++ [PeersSaved peers])).

Definition syncPeerDataWithOtherNodes (peers : list JsVal) : M unit :=
  emit (PeersSynced peers).

(** An identifier the module uses but neither declares nor imports:
    evaluating it throws.  The import list of the controller names
    neither [executeMempool] nor [addBlockToChain]. *)
Definition unbound {A : Type} (ident : string) : M A :=
  throw (ReferenceError ident).

(** A request to [registerNode]: the caller's address and the JSON body. *)
Record Request : Type := mkRequest { req_ip : JsVal; req_body : JsVal }.

Section RegisterNode.

(** [verifyNodeSignature] of middlewares/nodeAuth.js and [pingNode] of
    controllers/nodeController.js are not among the sources: the
    handler is stated for any signature check and any liveness probe. *)
Variable verifyNodeSignature :
  forall (ip provided_port sign public_key : JsVal), bool.
Variable pingNode : forall (ip provided_port : JsVal), bool.

(** The callback of [peerNodes.some]: its second disjunct is an arrow
    function, not a call. *)
Definition node_matches (ip provided_port public_key node : JsVal) : Res JsVal :=
  res_bind (js_field node "public_key") (fun node_key =>
    Ret (js_or (JBool (strict_eq node_key public_key))
               (JFunction "node => node.ip === ip && node.port === provided_port"))).

Definition registerNode (req : Request) : M Response :=
  provided_port <- lift (js_field (req_body req) "provided_port") ;;
  public_key <- lift (js_field (req_body req) "public_key") ;;
  sign <- lift (js_field (req_body req) "sign") ;;
  let ip := req_ip req in
  let isValidSignature := verifyNodeSignature ip provided_port sign public_key in
  if negb isValidSignature then
    ret (mkResponse 403 (message_body "Invalid signature"))
  else
    emit (Pinged ip provided_port) ;;
    let isNodeActive := pingNode ip provided_port in
    if negb isNodeActive then
      ret (mkResponse 400 (message_body "Node verification failed"))
    else
      peerNodes <- loadPeerNodes ;;
      nodeExists <- lift (array_some (node_matches ip provided_port public_key) peerNodes) ;;
      if nodeExists then
        ret (mkResponse 400 (message_body "Node already exists"))
      else
        let newNode := JObj [("ip", ip); ("provided_port", provided_port);
                             ("public_key", public_key)] in
        let peerNodes := peerNodes ++ [newNode] in
        savePeerNodes peerNodes ;;
        syncPeerDataWithOtherNodes peerNodes ;;
        ret (mkResponse 200 (message_body "Node registered successfully")).

End RegisterNode.

Definition make_transaction (sender recipient amt nonce sign : JsVal) : JsVal :=
  JObj [("sender", sender); ("recipient", recipient); ("amt", amt);
        ("nonce", nonce); ("sign", sign)].

Definition submitTxn (req_body : JsVal) : M Response :=
  sender <- lift (js_field req_body "sender") ;;
  recipient <- lift (js_field req_body "recipient") ;;
  amt <- lift (js_field req_body "amt") ;;
  nonce <- lift (js_field req_body "nonce") ;;
  sign <- lift (js_field req_body "sign") ;;
  if negb (truthy sender) || negb (truthy recipient) || negb (truthy amt)
     || negb (truthy nonce) || negb (truthy sign) then
    ret (mkResponse 400
           (error_body "All fields (sender, recipient, amt, nonce, sign) are required"))
  else
    isSignatureValid <- lift (verifySignature sender recipient amt nonce sign) ;;
    if negb isSignatureValid then
      ret (mkResponse 400 (error_body "Invalid signature"))
    else
      isNonceValid <- verifyNonce sender nonce ;;
      if negb isNonceValid then
        ret (mkResponse 400 (error_body "Invalid nonce"))
      else
        let transaction := make_transaction sender recipient amt nonce sign in
        broadcastTransaction transaction ;;
        addedToMempool <- addToMempool transaction ;;
        if negb addedToMempool then
          ret (mkResponse 500 (error_body "Failed to add transaction to mempool"))
        else
          full <- isMempoolFull ;;
          (if full then
             unbound (A := unit) "executeMempool" ;;
             minedBlock <- mineBlock ;;
             unbound (A := unit) "addBlockToChain" ;;
             broadcastBlock minedBlock ;;
             clearMempool
           else ret tt) ;;
          ret (mkResponse 200
                 (JObj [("message", JStr "Transaction submitted successfully");
                        ("transaction", transaction)])).

Definition checkBalanceByAdd (address : string) : M Response :=
  state <- loadBlockchainState ;;
  account <- lift (js_index state (JStr address)) ;;
  if negb (truthy account) then
    ret (mkResponse 404 (error_body "Address not found in blockchain state"))
  else
    ret (mkResponse 200
           (JObj [("address", JStr address);
                  ("balance", getBalanceByAddress (JStr address))])).

Definition getState : M Response :=
  state <- loadBlockchainState ;;
  ret (mkResponse 200 (JObj [("state", state)])).

End Controller.

(* ================================================================== *)
(** ** Worlds and requests used as examples *)

Module Examples.
Import Js Node CryptoUtils Controller.

Definition usable (content : option Text) : File := mkFile content true true.

Definition world_with (state : option Text) (mempool : option Text) : World :=
  mkWorld (usable state) (usable mempool) [] [].

Definition account (balance nonce : Z) : JsVal :=
  JObj [("balance", JNum balance); ("nonce", JNum nonce)].

(** The digest anyone can compute from the four public fields. *)
Definition public_digest (sender recipient : string) (amt nonce : Z) : string :=
  Sha256.sha256_hex (sender ++ recipient ++ decimal amt ++ decimal nonce)%string.

Definition txn_body (sender recipient : string) (amt nonce : Z) (sign : string) : JsVal :=
  JObj [("sender", JStr sender); ("recipient", JStr recipient);
        ("amt", JNum amt); ("nonce", JNum nonce); ("sign", JStr sign)].

Definition hashed_body (sender recipient : string) (amt nonce : Z) : JsVal :=
  txn_body sender recipient amt nonce (public_digest sender recipient amt nonce).

(** Account A with balance 100 and nonce 0, an empty mempool. *)
Definition ledger_A : JsVal := JObj [("A", account 100 0)].
Definition world_A : World :=
  world_with (Some (Encodes ledger_A)) (Some (Encodes (JArr []))).

(** A sends 30 to B with nonce 1. *)
Definition sign_A_B_30_1 : string :=
  "9c29bd09dc3b06eea33e5ae40164d1b00c243843159bb8278dacfc5b22f53e15".
Definition pay_A_B_30 : JsVal := txn_body "A" "B" 30 1 sign_A_B_30_1.

(** The fields of a request body. *)
Definition props_of (v : JsVal) : list (string * JsVal) :=
  match v with JObj props => props | _ => [] end.

Definition accepted (transaction : JsVal) : Response :=
  mkResponse 200 (JObj [("message", JStr "Transaction submitted successfully");
                        ("transaction", transaction)]).

Definition rejected (msg : string) : Response := mkResponse 400 (error_body msg).

(** The handler run on each body in turn, from left to right; the run
    stops at the first request that ends without an answer. *)
Fixpoint submit_each (bodies : list JsVal) (w : World) : Res (list Response) * World :=
  match bodies with
  | [] => (Ret [], w)
  | b :: rest =>
      match submitTxn b w with
      | (Ret r, w') =>
          match submit_each rest w' with
          | (Ret rs, w'') => (Ret (r :: rs), w'')
          | other => other
          end
      | (Throw e, w') => (Throw e, w')
      | (Outside, w') => (Outside, w')
      end
  end.

(** Eight distinct transactions of A, each valid against [ledger_A]:
    amounts 1 to 8, nonce 1. *)
Definition eight_bodies : list JsVal :=
  map (fun amt => hashed_body "A" "B" amt 1) [1; 2; 3; 4; 5; 6; 7; 8].

Definition ninth_body : JsVal := hashed_body "A" "B" 9 1.

Definition mempool_text (w : World) : option Text := data (mempool_file w).

Definition block_events (w : World) : list Event :=
  filter (fun e => match e with BroadcastBlock _ => true | _ => false end) (trace w).

(** A directory holding one peer, and a newcomer that shares neither its
    key nor its address and port. *)
Definition peer_X : JsVal :=
  JObj [("ip", JStr "10.0.0.1"); ("provided_port", JNum 3001);
        ("public_key", JStr "key-X")].

Definition world_one_peer : World :=
  mkWorld (usable None) (usable None) [peer_X] [].

Definition newcomer_Y : Request :=
  mkRequest (JStr "10.0.0.2")
    (JObj [("provided_port", JNum 3002); ("public_key", JStr "key-Y");
           ("sign", JStr "sig-Y")]).

Definition always (b : bool) : JsVal -> JsVal -> JsVal -> JsVal -> bool :=
  fun _ _ _ _ => b.
Definition reachable (b : bool) : JsVal -> JsVal -> bool := fun _ _ => b.

(** Account A with balance 10 only. *)
Definition ledger_poor : JsVal := JObj [("A", account 10 0)].
Definition world_poor : World :=
  world_with (Some (Encodes ledger_poor)) (Some (Encodes (JArr []))).

(** A sender that has no account in [ledger_A], and A with a nonce that
    is not its next one. *)
Definition pay_Z_B_30 : JsVal := hashed_body "Z" "B" 30 1.
Definition pay_A_B_30_nonce_5 : JsVal := hashed_body "A" "B" 30 5.

(** A state file that holds the JSON text [null]; one that is absent
    where nothing can be created. *)
Definition world_null_state : World := world_with (Some (Encodes JNull)) None.
Definition world_no_directory : World :=
  mkWorld (mkFile None true false) (usable None) [] [].

End Examples.

(* ================================================================== *)
(** ** The vocabulary of the specification *)

Module Spec.
Import Js Node Controller.

(** Section 7: the errors of transaction validation. *)
Inductive ValidationError : Type :=
| MalformedTransaction
| InvalidSignature
| UnknownSender
| InvalidNonce
| InsufficientFunds.

(** The validation error an answer of [submitTxn] names: the handler
    tells its 400 answers apart by the text of [error] only. *)
Definition reported (r : Response) : option ValidationError :=
  match body r with
  | JObj [(key, JStr msg)] =>
      if negb (status r =? 400) || negb (key =? "error")%string then None
      else if (msg =? "Invalid nonce")%string then Some InvalidNonce
      else if (msg =? "Invalid signature")%string then Some InvalidSignature
      else if (msg =? "All fields (sender, recipient, amt, nonce, sign) are required")%string
           then Some MalformedTransaction
      else None
  | _ => None
  end.

(** Section 3: the ledger state is a mapping from addresses to accounts. *)
Definition is_mapping (v : JsVal) : bool :=
  match v with JObj _ => true | _ => false end.

(** The five fields a transaction request must carry. *)
Definition required_fields : list string :=
  ["sender"; "recipient"; "amt"; "nonce"; "sign"].

Definition some_field_falsy (props : list (string * JsVal)) : bool :=
  existsb (fun name => negb (truthy (get_of_object props name))) required_fields.

Definition all_fields_required : string :=
  "All fields (sender, recipient, amt, nonce, sign) are required".

(** The transaction a request body carries. *)
Definition transaction_of (props : list (string * JsVal)) : JsVal :=
  make_transaction (get_of_object props "sender") (get_of_object props "recipient")
                   (get_of_object props "amt") (get_of_object props "nonce")
                   (get_of_object props "sign").

(** A request body that gets past the first two steps of [submitTxn]:
    no field is falsy and the signature is accepted. *)
Definition passes_signature (props : list (string * JsVal)) : Prop :=
  some_field_falsy props = false /\
  CryptoUtils.verifySignature
    (get_of_object props "sender") (get_of_object props "recipient")
    (get_of_object props "amt") (get_of_object props "nonce")
    (get_of_object props "sign") = Ret true.

(** What the file at a path parses to, when the file is there and can be
    read. *)
Definition parses_to (f : File) (v : JsVal) : Prop :=
  exists text, data f = Some text /\ can_read f = true /\ JSON_parse text = Ret v.

(** The world after [console.error(msg, ...)]. *)
Definition logged (w : World) (msg : string) : World :=
  mkWorld (state_file w) (mempool_file w) (peer_store w)
          (trace w ++ [ConsoleError msg]).

(** A relation between the world before and the world after that a
    computation maintains, whatever its outcome. *)
Definition maintains {A : Type} (R : World -> World -> Prop) (m : M A) : Prop :=
  forall (w w' : World) (r : Res A), m w = (r, w') -> R w w'.

(** The ledger state file, once it exists, is not written. *)
Definition ledger_kept (w w' : World) : Prop :=
  data (state_file w) <> None -> state_file w' = state_file w.

(** Neither file is touched. *)
Definition files_kept (w w' : World) : Prop :=
  state_file w' = state_file w /\ mempool_file w' = mempool_file w.

(** The peer directory is as it was. *)
Definition directory_kept (w w' : World) : Prop :=
  peer_store w' = peer_store w.

(** Nothing is written, except that a missing state file may be
    created. *)
Definition only_reads (w w' : World) : Prop :=
  ledger_kept w w' /\ mempool_file w' = mempool_file w /\
  peer_store w' = peer_store w.

(** The mempool file, once it exists, is not written. *)
Definition mempool_kept (w w' : World) : Prop :=
  data (mempool_file w) <> None -> mempool_file w' = mempool_file w.

(** The world after [broadcastTransaction(tx)]. *)
Definition broadcast (w : World) (tx : JsVal) : World :=
  mkWorld (state_file w) (mempool_file w) (peer_store w)
          (trace w ++ [BroadcastTransaction tx]).

(** The entry [registerNode] stores for a candidate. *)
Definition node_entry (ip provided_port public_key : JsVal) : JsVal :=
  JObj [("ip", ip); ("provided_port", provided_port); ("public_key", public_key)].

End Spec.

(* ================================================================== *)
(** * Properties *)

Import Js Node CryptoUtils Controller Examples Spec.
Local Open Scope node_scope.

(** The digest is computed on closed texts only ([vm_compute]); the proofs
    about arbitrary requests never look inside it. *)
Opaque Sha256.sha256_hex.

Lemma sha256_abc :
  Sha256.sha256_hex "abc"
  = "ba7816bf8f01cfea414140de5dae2223b00361a396177a9cb410ff61f20015ad".
Proof. vm_compute. reflexivity. Qed.

Lemma sha256_empty :
  Sha256.sha256_hex ""
  = "e3b0c44298fc1c149afbf4c8996fb92427ae41e4649b934ca495991b7852b855".
Proof. vm_compute. reflexivity. Qed.

(** A text of 56 bytes, which takes two blocks. *)
Lemma sha256_two_blocks :
  Sha256.sha256_hex "abcdbcdecdefdefgefghfghighijhijkijkljklmklmnlmnomnopnopq"
  = "248d6a61d20638b8e5c026930c3e6039a33ce45964ff2167f6ecedd419db06c1".
Proof. vm_compute. reflexivity. Qed.

Lemma sign_A_B_30_1_is_public : public_digest "A" "B" 30 1 = sign_A_B_30_1.
Proof. vm_compute. reflexivity. Qed.

(** ** The JSON image of a value *)

Lemma json_image_array (l : list JsVal) :
  json_image (JArr l) = JArr (map json_image l).
Proof. reflexivity. Qed.

(** Induction on a value, through the elements of an array and the
    properties of an object. *)
Section JsVal_induction.
Variable P : JsVal -> Prop.
Hypothesis P_undefined : P JUndefined.
Hypothesis P_null : P JNull.
Hypothesis P_bool : forall b, P (JBool b).
Hypothesis P_num : forall n, P (JNum n).
Hypothesis P_nan : P JNaN.
Hypothesis P_str : forall s, P (JStr s).
Hypothesis P_arr : forall elems, Forall P elems -> P (JArr elems).
Hypothesis P_obj :
  forall props, Forall (fun kv => P (snd kv)) props -> P (JObj props).
Hypothesis P_function : forall name, P (JFunction name).

Fixpoint JsVal_nested_ind (v : JsVal) : P v :=
  match v with
  | JUndefined => P_undefined
  | JNull => P_null
  | JBool b => P_bool b
  | JNum n => P_num n
  | JNaN => P_nan
  | JStr s => P_str s
  | JArr elems =>
      P_arr elems
        ((fix all (l : list JsVal) : Forall P l :=
            match l with
            | [] => Forall_nil P
            | e :: l' => Forall_cons e (JsVal_nested_ind e) (all l')
            end) elems)
  | JObj props =>
      P_obj props
        ((fix all (l : list (string * JsVal)) : Forall (fun kv => P (snd kv)) l :=
            match l with
            | [] => Forall_nil _
            | kv :: l' => Forall_cons kv (JsVal_nested_ind (snd kv)) (all l')
            end) props)
  | JFunction name => P_function name
  end.
End JsVal_induction.

Lemma json_image_serialisable (v : JsVal) : serialisable (json_image v) = true.
Proof. destruct v; reflexivity. Qed.

(** What was written and read back is read back unchanged a second
    time. *)
Lemma json_image_idempotent (v : JsVal) :
  json_image (json_image v) = json_image v.
Proof.
  induction v using JsVal_nested_ind; try reflexivity.
  - rewrite !json_image_array. f_equal.
    induction H as [|e l He _ IH]; [reflexivity|].
    cbn [map]. now rewrite He, IH.
  - cbn [json_image]. f_equal.
    induction H as [|[k e] l He _ IH]; [reflexivity|].
    cbn [snd] in He. destruct (serialisable e); [|exact IH].
    rewrite json_image_serialisable, He. now rewrite IH.
Qed.

(** Reading gives JSON values only. *)
Lemma json_image_is_json (v : JsVal) : is_json (json_image v) = true.
Proof.
  induction v using JsVal_nested_ind; try reflexivity.
  - cbn [json_image is_json].
    induction H as [|e l He _ IH]; [reflexivity|]. now rewrite He, IH.
  - cbn [json_image is_json].
    induction H as [|[k e] l He _ IH]; [reflexivity|].
    cbn [snd] in He. destruct (serialisable e); [|exact IH].
    now rewrite He, IH.
Qed.

Lemma is_json_serialisable (v : JsVal) : is_json v = true -> serialisable v = true.
Proof. destruct v; simpl; congruence. Qed.

(** A JSON value is written and read back as it is. *)
Lemma json_image_id (v : JsVal) : is_json v = true -> json_image v = v.
Proof.
  induction v using JsVal_nested_ind; try reflexivity; try discriminate.
  - cbn [json_image is_json]. intros Hall. f_equal.
    induction H as [|e l He _ IH]; [reflexivity|].
    apply andb_prop in Hall as [Hj Hl]. now rewrite (He Hj), (IH Hl).
  - cbn [json_image is_json]. intros Hall. f_equal.
    induction H as [|[k e] l He _ IH]; [reflexivity|].
    cbn [snd] in He. apply andb_prop in Hall as [Hj Hl].
    now rewrite (is_json_serialisable e Hj), (He Hj), (IH Hl).
Qed.

Lemma JSON_parse_is_json (t : Text) (v : JsVal) :
  JSON_parse t = Ret v -> is_json v = true.
Proof.
  destruct t; cbn [JSON_parse]; try discriminate.
  intros [= <-]. apply json_image_is_json.
Qed.

Lemma JSON_parse_stable (t : Text) (v : JsVal) :
  JSON_parse t = Ret v -> json_image v = v.
Proof.
  destruct t; cbn [JSON_parse]; try discriminate.
  intros [= <-]. apply json_image_idempotent.
Qed.

Lemma json_image_mapping (v : JsVal) :
  is_mapping (json_image v) = is_mapping v.
Proof. destruct v; reflexivity. Qed.

(** ** Stepping through a handler *)

Lemma bind_ret {A B : Type} (m : M A) (k : A -> M B) (w w' : World) (a : A) :
  m w = (Ret a, w') -> bind m k w = k a w'.
Proof. intros H. unfold bind. now rewrite H. Qed.

Lemma bind_throw {A B : Type} (m : M A) (k : A -> M B) (w w' : World) (e : Exn) :
  m w = (Throw e, w') -> bind m k w = (Throw e, w').
Proof. intros H. unfold bind. now rewrite H. Qed.

Lemma bind_ret_inv {A B : Type} (m : M A) (k : A -> M B) (w w' : World) (b : B) :
  bind m k w = (Ret b, w') ->
  exists (a : A) (w1 : World), m w = (Ret a, w1) /\ k a w1 = (Ret b, w').
Proof.
  unfold bind. destruct (m w) as [[a|e|] w1]; try discriminate.
  intros H. now exists a, w1.
Qed.

Lemma strict_eq_string (h : string) (v : JsVal) :
  strict_eq (JStr h) v = true <-> v = JStr h.
Proof.
  split.
  - destruct v; simpl; try discriminate.
    intros H. apply String.eqb_eq in H. now subst.
  - intros ->. simpl. apply String.eqb_refl.
Qed.

Lemma strict_eq_number (v : JsVal) (k : Z) :
  strict_eq v (JNum k) = true <-> v = JNum k.
Proof.
  split.
  - destruct v; simpl; try discriminate.
    intros H. apply Z.eqb_eq in H. now subst.
  - intros ->. simpl. apply Z.eqb_refl.
Qed.

(** ** Reading the ledger state *)

Lemma ensureFileExists_present (p : Path) (init : Text) (w : World) (t : Text) :
  data (file_at w p) = Some t ->
  ensureFileExists p init w = (Ret tt, w).
Proof.
  intros H. unfold ensureFileExists, bind, existsSync. now rewrite H.
Qed.

Lemma loadBlockchainState_parses (w : World) (v : JsVal) :
  parses_to (state_file w) v ->
  loadBlockchainState w = (Ret v, w).
Proof.
  intros (text & Hd & Hr & Hp).
  unfold loadBlockchainState.
  rewrite (bind_ret _ _ w w tt) by (now apply ensureFileExists_present with text).
  unfold try_catch, bind, readFileSync, lift. simpl.
  now rewrite Hd, Hr, Hp.
Qed.

(** ** Runs on the example worlds *)

Ltac run := vm_compute; reflexivity.

(** C2, at the failing input: account A (balance 100, nonce 0) sends 30 to
    B with nonce 1, and the same request is submitted again with no block
    in between.  Both submissions are answered 200 and the mempool holds
    the transaction twice: the second one is not rejected. *)
Theorem replay_is_accepted :
  exists w1 w2 : World,
    submitTxn pay_A_B_30 world_A = (Ret (accepted pay_A_B_30), w1) /\
    submitTxn pay_A_B_30 w1 = (Ret (accepted pay_A_B_30), w2) /\
    mempool_text w1 = Some (Encodes (JArr [pay_A_B_30])) /\
    mempool_text w2 = Some (Encodes (JArr [pay_A_B_30; pay_A_B_30])) /\
    state_file w2 = state_file world_A /\
    reported (accepted pay_A_B_30) = None.
Proof.
  eexists. eexists.
  split; [run|]. split; [run|]. split; [run|]. split; [run|]. split; run.
Qed.

(** C4, at the failing input: eight distinct valid transactions are
    submitted to an empty mempool.  All eight are answered 200, the mempool
    then holds the eight and is not found full, and no block was
    broadcast; the ninth submission adds a ninth entry and ends in a
    ReferenceError instead of an answer, and the mempool is not emptied. *)
Theorem eight_transactions_produce_no_block :
  List.length eight_bodies = 8%nat /\
  exists w8 w9 : World,
    submit_each eight_bodies world_A
      = (Ret (map (fun b => accepted b) eight_bodies), w8) /\
    mempool_text w8 = Some (Encodes (JArr eight_bodies)) /\
    isMempoolFull w8 = (Ret false, w8) /\
    block_events w8 = [] /\
    submitTxn ninth_body w8 = (Throw (ReferenceError "executeMempool"), w9) /\
    mempool_text w9 = Some (Encodes (JArr (eight_bodies ++ [ninth_body]))) /\
    block_events w9 = [].
Proof.
  split; [reflexivity|]. eexists. eexists.
  split; [run|]. split; [run|]. split; [run|]. split; [run|].
  split; [run|]. split; run.
Qed.

(** C5, at the failing input: the directory holds one peer and the
    candidate matches it neither by public key nor by address and port,
    its signature verifies and it answers the probe.  The registration is
    refused as a duplicate and the directory is left as it was. *)
Theorem fresh_peer_is_refused :
  strict_eq (JStr "key-X") (JStr "key-Y") = false /\
  strict_eq (JStr "10.0.0.1") (req_ip newcomer_Y) = false /\
  exists w,
    registerNode (always true) (reachable true) newcomer_Y world_one_peer
      = (Ret (mkResponse 400 (message_body "Node already exists")), w) /\
    peer_store w = [peer_X].
Proof.
  split; [run|]. split; [run|]. eexists. split; run.
Qed.

(** C7, at the failing input: the ledger gives A the balance 100, and the
    balance endpoint answers 200 with balance 0. *)
Theorem balance_of_A_is_reported_zero :
  own [("A", account 100 0)] "A" = Some (account 100 0) /\
  checkBalanceByAdd "A" world_A
    = (Ret (mkResponse 200 (JObj [("address", JStr "A"); ("balance", JNum 0)])),
       world_A).
Proof. split; run. Qed.

(** ** Transaction submission: the presence check *)

(** C10: a request in which [sender], [recipient], [amt], [nonce] or
    [sign] is missing or falsy is answered 400 with the "all fields are
    required" error, whatever the other fields and the files hold, and
    leaves the node as it found it: neither the signature check nor the
    nonce check has run.  An [amt] or a [nonce] of 0 is falsy. *)
Theorem falsy_field_is_rejected_first :
  forall (props : list (string * JsVal)) (w : World),
    some_field_falsy props = true ->
    submitTxn (JObj props) w = (Ret (rejected all_fields_required), w).
Proof.
  intros props w H.
  unfold some_field_falsy, required_fields in H. cbn [existsb] in H.
  rewrite orb_false_r in H.
  unfold submitTxn, bind, lift, js_field.
  destruct (negb (truthy (get_of_object props "sender")));
    [reflexivity|].
  destruct (negb (truthy (get_of_object props "recipient")));
    [reflexivity|].
  destruct (negb (truthy (get_of_object props "amt")));
    [reflexivity|].
  destruct (negb (truthy (get_of_object props "nonce")));
    [reflexivity|].
  destruct (negb (truthy (get_of_object props "sign")));
    [reflexivity|].
  discriminate H.
Qed.

Lemma falsy_field_is_rejected_first_witness :
  some_field_falsy [("sender", JStr "A"); ("recipient", JStr "B");
                    ("amt", JNum 0); ("nonce", JNum 1); ("sign", JStr "s")] = true /\
  submitTxn (JObj [("sender", JStr "A"); ("recipient", JStr "B");
                   ("amt", JNum 0); ("nonce", JNum 1); ("sign", JStr "s")]) world_A
    = (Ret (rejected all_fields_required), world_A).
Proof.
  split; [reflexivity|].
  apply (falsy_field_is_rejected_first
           [("sender", JStr "A"); ("recipient", JStr "B");
            ("amt", JNum 0); ("nonce", JNum 1); ("sign", JStr "s")] world_A).
  reflexivity.
Defined.

Lemma zero_amount_is_falsy (props : list (string * JsVal)) :
  get_of_object props "amt" = JNum 0 -> some_field_falsy props = true.
Proof.
  intros H. unfold some_field_falsy, required_fields. cbn [existsb].
  rewrite H. cbn [truthy Z.eqb negb]. now rewrite !orb_true_r.
Qed.

Lemma zero_nonce_is_falsy (props : list (string * JsVal)) :
  get_of_object props "nonce" = JNum 0 -> some_field_falsy props = true.
Proof.
  intros H. unfold some_field_falsy, required_fields. cbn [existsb].
  rewrite H. cbn [truthy Z.eqb negb]. now rewrite !orb_true_r.
Qed.

Lemma missing_field_is_falsy (props : list (string * JsVal)) (name : string) :
  In name required_fields -> own props name = None ->
  some_field_falsy props = true.
Proof.
  intros Hin Hown. unfold some_field_falsy. apply existsb_exists.
  exists name. split; [exact Hin|].
  unfold get_of_object. rewrite Hown.
  unfold required_fields in Hin. simpl in Hin.
  destruct Hin as [<-|[<-|[<-|[<-|[<-|[]]]]]]; reflexivity.
Qed.

(** ** Peer registration: a signature that does not verify *)

(** C8: when the signature of a registration request does not verify
    against the supplied public key, the answer is 403 "Invalid signature"
    and the node is left as it found it: the directory has no new entry,
    nothing was saved or synced, no probe was sent. *)
Theorem bad_signature_is_403 :
  forall (verifyNodeSignature : JsVal -> JsVal -> JsVal -> JsVal -> bool)
         (pingNode : JsVal -> JsVal -> bool)
         (req : Request) (provided_port public_key sign : JsVal) (w : World),
    js_field (req_body req) "provided_port" = Ret provided_port ->
    js_field (req_body req) "public_key" = Ret public_key ->
    js_field (req_body req) "sign" = Ret sign ->
    verifyNodeSignature (req_ip req) provided_port sign public_key = false ->
    registerNode verifyNodeSignature pingNode req w
      = (Ret (mkResponse 403 (message_body "Invalid signature")), w).
Proof.
  intros verify ping req provided_port public_key sign w Hport Hkey Hsign H.
  unfold registerNode. rewrite Hport, Hkey, Hsign. cbn [bind lift].
  now rewrite H.
Qed.

Lemma bad_signature_is_403_witness :
  js_field (req_body newcomer_Y) "provided_port" = Ret (JNum 3002) /\
  js_field (req_body newcomer_Y) "public_key" = Ret (JStr "key-Y") /\
  js_field (req_body newcomer_Y) "sign" = Ret (JStr "sig-Y") /\
  always false (req_ip newcomer_Y) (JNum 3002) (JStr "sig-Y") (JStr "key-Y") = false /\
  registerNode (always false) (reachable true) newcomer_Y world_one_peer
    = (Ret (mkResponse 403 (message_body "Invalid signature")), world_one_peer).
Proof.
  split; [reflexivity|]. split; [reflexivity|]. split; [reflexivity|].
  split; [reflexivity|].
  apply (bad_signature_is_403 (always false) (reachable true) newcomer_Y
           (JNum 3002) (JStr "key-Y") (JStr "sig-Y") world_one_peer);
    reflexivity.
Defined.

(** ** Transaction signatures *)

(** C1, counterexample: a signature computed from the four public fields
    alone, with no key, is accepted: for A sending 30 to B with nonce 1
    it is the digest of "AB301", and likewise for every sender and
    recipient and every amount and nonce that are safe integers. *)
Lemma signature_from_public_fields :
  (forall (sender recipient : string) (amt nonce : Z),
      safe_integer amt = true -> safe_integer nonce = true ->
      verifySignature (JStr sender) (JStr recipient) (JNum amt) (JNum nonce)
                      (JStr (public_digest sender recipient amt nonce))
      = Ret true) /\
  verifySignature (JStr "A") (JStr "B") (JNum 30) (JNum 1)
                  (JStr "9c29bd09dc3b06eea33e5ae40164d1b00c243843159bb8278dacfc5b22f53e15")
  = Ret true.
Proof.
  split.
  - intros sender recipient amt nonce Hamt Hnonce.
    unfold verifySignature, signed_data, public_digest. cbn [to_string res_bind].
    rewrite Hamt, Hnonce. cbn [res_bind].
    f_equal. apply strict_eq_string. reflexivity.
  - vm_compute. reflexivity.
Qed.

(** C1, amended: [verifySignature] accepts exactly one signature, the
    hexadecimal SHA-256 digest of the string forms of sender, recipient,
    amount and nonce written one after the other; that value is a function
    of the public fields. *)
Theorem verifySignature_accepts_the_digest :
  forall (sender recipient amt nonce sign : JsVal) (data : string),
    signed_data sender recipient amt nonce = Ret data ->
    (verifySignature sender recipient amt nonce sign = Ret true
     <-> sign = JStr (Sha256.sha256_hex data)).
Proof.
  intros sender recipient amt nonce sign data H.
  unfold verifySignature. rewrite H. cbn [res_bind].
  rewrite <- strict_eq_string.
  split; intros E.
  - injection E as E. exact E.
  - rewrite E. reflexivity.
Qed.

Lemma verifySignature_accepts_the_digest_witness :
  signed_data (JStr "A") (JStr "B") (JNum 30) (JNum 1) = Ret "AB301" /\
  (verifySignature (JStr "A") (JStr "B") (JNum 30) (JNum 1) (JStr sign_A_B_30_1)
     = Ret true
   <-> JStr sign_A_B_30_1 = JStr (Sha256.sha256_hex "AB301")).
Proof.
  split; [reflexivity|].
  apply (verifySignature_accepts_the_digest
           (JStr "A") (JStr "B") (JNum 30) (JNum 1) (JStr sign_A_B_30_1) "AB301").
  reflexivity.
Defined.

(** The signed text is not a canonical serialization: two different
    transfers have the same text, hence the same accepted signature. *)
Lemma signed_data_is_ambiguous :
  signed_data (JStr "A") (JStr "B1") (JNum 2) (JNum 1)
  = signed_data (JStr "A") (JStr "B") (JNum 12) (JNum 1).
Proof. reflexivity. Qed.

(** ** Loading the ledger state *)

(** C9, counterexample: a state file that holds the JSON text [null] makes
    [loadBlockchainState] return [null], which is not a mapping; and when
    the file is absent and cannot be created, the error of the write
    reaches the caller. *)
Lemma loadBlockchainState_null_and_uncreatable :
  loadBlockchainState world_null_state = (Ret JNull, world_null_state) /\
  is_mapping JNull = false /\
  loadBlockchainState world_no_directory = (Throw SystemError, world_no_directory).
Proof. split; [run|]. split; run. Qed.

(** C9, amended: [loadBlockchainState] never passes on an error of reading
    or parsing.  When the state file is absent it creates it with the text
    of the empty mapping, and only the failure of that write reaches the
    caller.  Otherwise it returns a value: the empty mapping when the file
    was just created or cannot be read or does not parse, and what the
    text parses to when it does, which is a mapping when the text is that
    of a JSON object and is not one otherwise. *)
Theorem loadBlockchainState_outcomes :
  forall w : World,
    (data (state_file w) = None /\ can_write (state_file w) = false /\
     loadBlockchainState w = (Throw SystemError, w))
    \/
    (exists (v : JsVal) (w' : World),
        loadBlockchainState w = (Ret v, w') /\
        mempool_file w' = mempool_file w /\ peer_store w' = peer_store w /\
        match data (state_file w) with
        | None =>
            can_write (state_file w) = true /\ v = JObj [] /\
            data (state_file w') = Some (Encodes (JObj []))
        | Some text =>
            state_file w' = state_file w /\
            match JSON_parse text with
            | Ret x =>
                if can_read (state_file w)
                then v = x /\ w' = w
                else v = JObj []
            | _ => v = JObj []
            end
        end).
Proof.
  intros [[d r wr] mf ps tr]. cbn [state_file data can_read can_write].
  unfold loadBlockchainState, ensureFileExists, bind, existsSync, writeFileSync,
    try_catch, readFileSync, lift, console_error, emit, ret.
  cbn [file_at set_file state_file mempool_file peer_store trace
       data can_read can_write negb].
  destruct d as [text|].
  - right. cbn [negb]. destruct r.
    + destruct text as [| |x]; cbn [JSON_parse]; eexists; eexists;
        repeat split; reflexivity.
    + exists (JObj []). eexists.
      split; [reflexivity|]. repeat split.
      destruct (JSON_parse text); reflexivity.
  - cbn [negb]. destruct wr.
    + right. cbn [data can_read state_file file_at set_file].
      destruct r; cbn [JSON_parse json_image]; eexists; eexists;
        repeat split; reflexivity.
    + left. repeat split.
Qed.

(** In particular the value is a mapping for a file that is empty, is not
    JSON or holds a JSON object. *)
Lemma loadBlockchainState_mapping_cases :
  forall (w : World) (text : Text),
    data (state_file w) = Some text ->
    (text = Empty \/ text = Malformed \/
     exists props, text = Encodes (JObj props)) ->
    exists v w', loadBlockchainState w = (Ret v, w') /\ is_mapping v = true.
Proof.
  intros w text Hd Ht. unfold loadBlockchainState.
  rewrite (bind_ret _ _ w w tt) by (now apply ensureFileExists_present with text).
  unfold try_catch, bind, readFileSync, lift, console_error, emit, ret.
  cbn [file_at]. rewrite Hd. destruct (can_read (state_file w)).
  - destruct Ht as [->|[->|(props & ->)]]; cbn [JSON_parse json_image];
      eexists; eexists; split; reflexivity.
  - eexists; eexists; split; reflexivity.
Qed.

(** ** The nonce check *)

(** On a safe integer, [+ 1] is exact. *)
Lemma round_to_double_succ (k : Z) :
  safe_integer k = true -> round_to_double (k + 1) = k + 1.
Proof.
  unfold safe_integer. intros Hk. apply Z.ltb_lt in Hk.
  unfold round_to_double.
  destruct (Z.abs (k + 1) <? 2 ^ 53) eqn:Hlt; [reflexivity|].
  apply Z.ltb_ge in Hlt.
  assert (Hk1 : k + 1 = 2 ^ 53) by lia.
  rewrite Hk1. vm_compute. reflexivity.
Qed.

(** Beyond the safe integers it is not: 2^53 + 1 is 2^53. *)
Lemma round_to_double_beyond : round_to_double (2 ^ 53 + 1) = 2 ^ 53.
Proof. vm_compute. reflexivity. Qed.

Lemma strict_eq_NaN (v : JsVal) : strict_eq v JNaN = false.
Proof. destruct v; reflexivity. Qed.

Lemma verifyNonce_no_account (w : World) (props : list (string * JsVal))
      (s : string) (nonce : JsVal) :
  parses_to (state_file w) (JObj props) ->
  own props s = None ->
  verifyNonce (JStr s) nonce w = (Ret false, w).
Proof.
  intros Hst Hown. unfold verifyNonce.
  rewrite (bind_ret _ _ w w (JObj props)) by (now apply loadBlockchainState_parses).
  unfold js_index, get_of_object. cbn [to_string res_bind]. rewrite Hown.
  destruct (inherited s); [|reflexivity].
  unfold bind, lift, ret. cbn [truthy negb js_field js_add to_primitive res_bind
    is_string orb to_number]. now rewrite strict_eq_NaN.
Qed.

Lemma verifyNonce_account (w : World) (props aprops : list (string * JsVal))
      (s : string) (nonce : JsVal) (k : Z) :
  parses_to (state_file w) (JObj props) ->
  own props s = Some (JObj aprops) ->
  own aprops "nonce" = Some (JNum k) ->
  verifyNonce (JStr s) nonce w
  = (Ret (strict_eq nonce (JNum (round_to_double (k + 1)))), w).
Proof.
  intros Hst Hown Hnonce. unfold verifyNonce.
  rewrite (bind_ret _ _ w w (JObj props)) by (now apply loadBlockchainState_parses).
  unfold js_index, get_of_object. cbn [to_string res_bind]. rewrite Hown.
  unfold bind, lift, ret. cbn [truthy negb js_field]. unfold get_of_object.
  rewrite Hnonce. reflexivity.
Qed.

(** ** Transaction submission: past the signature *)

Lemma presence_check (props : list (string * JsVal)) :
  negb (truthy (get_of_object props "sender"))
  || negb (truthy (get_of_object props "recipient"))
  || negb (truthy (get_of_object props "amt"))
  || negb (truthy (get_of_object props "nonce"))
  || negb (truthy (get_of_object props "sign"))
  = some_field_falsy props.
Proof.
  unfold some_field_falsy, required_fields. cbn [existsb].
  now rewrite orb_false_r, !orb_assoc.
Qed.

(** The steps of [submitTxn] up to the nonce check, for a body that gets
    past them. *)
Ltac past_signature Hpass :=
  let Hf := fresh "Hfields" in
  let Hs := fresh "Hsign" in
  destruct Hpass as [Hf Hs];
  unfold submitTxn, js_field; cbn [bind lift];
  rewrite presence_check, Hf, Hs; cbn [bind lift negb].

Lemma submitTxn_invalid_nonce (props : list (string * JsVal)) (w w' : World) :
  passes_signature props ->
  verifyNonce (get_of_object props "sender") (get_of_object props "nonce") w
    = (Ret false, w') ->
  submitTxn (JObj props) w = (Ret (rejected "Invalid nonce"), w').
Proof.
  intros Hpass Hnonce. past_signature Hpass.
  rewrite (bind_ret _ _ _ _ _ Hnonce). reflexivity.
Qed.

(** C6, counterexample: on the ledger that knows only A, a well-signed
    transfer from Z, who has no account, and a well-signed transfer from A
    with nonce 5 instead of 1 get the same answer, 400 "Invalid nonce";
    that answer does not name an unknown sender. *)
Lemma unknown_sender_gets_invalid_nonce :
  own [("A", account 100 0)] "Z" = None /\
  submitTxn pay_Z_B_30 world_A = (Ret (rejected "Invalid nonce"), world_A) /\
  submitTxn pay_A_B_30_nonce_5 world_A = (Ret (rejected "Invalid nonce"), world_A) /\
  reported (rejected "Invalid nonce") = Some InvalidNonce /\
  reported (rejected "Invalid nonce") <> Some UnknownSender.
Proof.
  split; [run|]. split; [run|]. split; [run|]. split; [run|].
  vm_compute. discriminate.
Qed.

(** C6, amended: for a transaction that got past the signature check,
    against a ledger state that is a JSON object: if the sender has no
    account, or has one (its nonce a safe integer) and the nonce of the
    transaction differs from the nonce of the account plus 1, the answer
    is the same 400 "Invalid nonce"; if the sender has an account and the
    nonce of the transaction equals the nonce of the account plus 1, the
    nonce check passes. *)
Theorem nonce_check_outcomes :
  forall (w : World) (props bprops : list (string * JsVal)) (s : string),
    parses_to (state_file w) (JObj props) ->
    passes_signature bprops ->
    get_of_object bprops "sender" = JStr s ->
    (own props s = None ->
     submitTxn (JObj bprops) w = (Ret (rejected "Invalid nonce"), w))
    /\
    (forall (aprops : list (string * JsVal)) (k : Z),
        own props s = Some (JObj aprops) ->
        own aprops "nonce" = Some (JNum k) ->
        safe_integer k = true ->
        (get_of_object bprops "nonce" <> JNum (k + 1) ->
         submitTxn (JObj bprops) w = (Ret (rejected "Invalid nonce"), w))
        /\
        (get_of_object bprops "nonce" = JNum (k + 1) ->
         verifyNonce (JStr s) (get_of_object bprops "nonce") w = (Ret true, w))).
Proof.
  intros w props bprops s Hst Hpass Hsender. split.
  - intros Hown. apply submitTxn_invalid_nonce; [exact Hpass|].
    rewrite Hsender. now apply verifyNonce_no_account with props.
  - intros aprops k Hown Hnonce Hsafe. split; intros Hk.
    + apply submitTxn_invalid_nonce; [exact Hpass|].
      rewrite Hsender, (verifyNonce_account w props aprops s _ k Hst Hown Hnonce).
      rewrite (round_to_double_succ k Hsafe).
      destruct (strict_eq (get_of_object bprops "nonce") (JNum (k + 1))) eqn:E;
        [|reflexivity].
      apply strict_eq_number in E. contradiction.
    + rewrite (verifyNonce_account w props aprops s _ k Hst Hown Hnonce).
      rewrite (round_to_double_succ k Hsafe).
      rewrite Hk. cbn [strict_eq]. now rewrite Z.eqb_refl.
Qed.

(** The three cases on the ledger that knows A with nonce 0: Z has no
    account, A sends nonce 5, A sends nonce 1. *)
Lemma nonce_check_outcomes_witness :
  parses_to (state_file world_A) (JObj (props_of ledger_A)) /\
  (passes_signature (props_of pay_Z_B_30) /\
   get_of_object (props_of pay_Z_B_30) "sender" = JStr "Z" /\
   own (props_of ledger_A) "Z" = None /\
   submitTxn (JObj (props_of pay_Z_B_30)) world_A
   = (Ret (rejected "Invalid nonce"), world_A)) /\
  (passes_signature (props_of pay_A_B_30_nonce_5) /\
   get_of_object (props_of pay_A_B_30_nonce_5) "sender" = JStr "A" /\
   own (props_of ledger_A) "A" = Some (JObj (props_of (account 100 0))) /\
   own (props_of (account 100 0)) "nonce" = Some (JNum 0) /\
   safe_integer 0 = true /\
   get_of_object (props_of pay_A_B_30_nonce_5) "nonce" <> JNum (0 + 1) /\
   submitTxn (JObj (props_of pay_A_B_30_nonce_5)) world_A
   = (Ret (rejected "Invalid nonce"), world_A)) /\
  (passes_signature (props_of pay_A_B_30) /\
   get_of_object (props_of pay_A_B_30) "sender" = JStr "A" /\
   get_of_object (props_of pay_A_B_30) "nonce" = JNum (0 + 1) /\
   verifyNonce (JStr "A") (get_of_object (props_of pay_A_B_30) "nonce") world_A
   = (Ret true, world_A)).
Proof.
  assert (Hst : parses_to (state_file world_A) (JObj (props_of ledger_A)))
    by (exists (Encodes ledger_A); repeat split).
  assert (HZ : passes_signature (props_of pay_Z_B_30))
    by (split; vm_compute; reflexivity).
  assert (H5 : passes_signature (props_of pay_A_B_30_nonce_5))
    by (split; vm_compute; reflexivity).
  assert (H1 : passes_signature (props_of pay_A_B_30))
    by (split; vm_compute; reflexivity).
  assert (Hdiff : get_of_object (props_of pay_A_B_30_nonce_5) "nonce" <> JNum (0 + 1))
    by (vm_compute; discriminate).
  split; [exact Hst|]. split; [|split].
  - split; [exact HZ|]. split; [reflexivity|]. split; [reflexivity|].
    exact (proj1 (nonce_check_outcomes world_A (props_of ledger_A)
                    (props_of pay_Z_B_30) "Z" Hst HZ eq_refl) eq_refl).
  - split; [exact H5|]. split; [reflexivity|]. split; [reflexivity|].
    split; [reflexivity|]. split; [reflexivity|]. split; [exact Hdiff|].
    exact (proj1 (proj2 (nonce_check_outcomes world_A (props_of ledger_A)
                           (props_of pay_A_B_30_nonce_5) "A" Hst H5 eq_refl)
                    (props_of (account 100 0)) 0 eq_refl eq_refl eq_refl) Hdiff).
  - split; [exact H1|]. split; [reflexivity|]. split; [reflexivity|].
    exact (proj2 (proj2 (nonce_check_outcomes world_A (props_of ledger_A)
                           (props_of pay_A_B_30) "A" Hst H1 eq_refl)
                    (props_of (account 100 0)) 0 eq_refl eq_refl eq_refl) eq_refl).
Defined.

(** Beyond the safe integers the sum is rounded: against a stored nonce
    of 2^53 the nonce that passes is 2^53 itself. *)
Lemma verifyNonce_beyond_safe_integers (w : World)
      (props aprops : list (string * JsVal)) (s : string) :
  parses_to (state_file w) (JObj props) ->
  own props s = Some (JObj aprops) ->
  own aprops "nonce" = Some (JNum (2 ^ 53)) ->
  verifyNonce (JStr s) (JNum (2 ^ 53)) w = (Ret true, w).
Proof.
  intros Hst Hown Hnonce.
  now rewrite (verifyNonce_account w props aprops s _ _ Hst Hown Hnonce).
Qed.

(** ** Admission to the mempool *)

Lemma addToMempool_appends (w : World) (pool : list JsVal) (tx : JsVal) :
  parses_to (mempool_file w) (JArr pool) ->
  can_write (mempool_file w) = true ->
  addToMempool tx w
  = (Ret true,
     set_file w MEMPOOL_FILE (mkFile (Some (Encodes (JArr (pool ++ [tx]))))
                                     true true)).
Proof.
  intros (text & Hd & Hr & Hp) Hw. unfold addToMempool.
  rewrite (bind_ret _ _ w w tt)
    by (now apply ensureFileExists_present with text).
  unfold try_catch, bind, readFileSync, writeFileSync, lift, ret.
  cbn [file_at]. rewrite Hd, Hr, Hp. cbn [js_push JSON_stringify serialisable].
  now rewrite Hw, Hr.
Qed.

Lemma isMempoolFull_counts (w : World) (pool : list JsVal) :
  parses_to (mempool_file w) (JArr pool) ->
  isMempoolFull w = (Ret (8 <? Z.of_nat (List.length pool)), w).
Proof.
  intros (text & Hd & Hr & Hp). unfold isMempoolFull.
  rewrite (bind_ret _ _ w w tt)
    by (now apply ensureFileExists_present with text).
  unfold try_catch, bind, readFileSync, lift.
  cbn [file_at]. now rewrite Hd, Hr, Hp.
Qed.

(** C3, counterexample: A has balance 10 and sends 30; the transaction is
    answered 200 and is in the mempool, and the answer names no
    validation error. *)
Lemma overdraft_is_admitted :
  own (props_of ledger_poor) "A" = Some (account 10 0) /\
  10 < 30 /\
  exists w',
    submitTxn (hashed_body "A" "B" 30 1) world_poor
      = (Ret (accepted (hashed_body "A" "B" 30 1)), w') /\
    mempool_text w' = Some (Encodes (JArr [hashed_body "A" "B" 30 1])) /\
    reported (accepted (hashed_body "A" "B" 30 1)) = None.
Proof.
  split; [run|]. split; [lia|]. eexists.
  split; [run|]. split; run.
Qed.

(** A transaction that got past the signature check and carries the
    next nonce of its sender is answered 200 and appended to the mempool;
    nothing else of the account is read. *)
Lemma submitTxn_admits :
  forall (w : World) (props aprops bprops : list (string * JsVal))
         (pool : list JsVal) (s : string) (k : Z),
    parses_to (state_file w) (JObj props) ->
    parses_to (mempool_file w) (JArr pool) ->
    can_write (mempool_file w) = true ->
    (List.length pool < 8)%nat ->
    passes_signature bprops ->
    get_of_object bprops "sender" = JStr s ->
    get_of_object bprops "nonce" = JNum (k + 1) ->
    own props s = Some (JObj aprops) ->
    own aprops "nonce" = Some (JNum k) ->
    safe_integer k = true ->
    exists w' : World,
      submitTxn (JObj bprops) w = (Ret (accepted (transaction_of bprops)), w') /\
      mempool_file w'
        = mkFile (Some (Encodes (JArr (pool ++ [transaction_of bprops])))) true true /\
      state_file w' = state_file w.
Proof.
  intros w props aprops bprops pool s k
         Hst Hmp Hw Hlen Hpass Hsender Hnonce Hown Hk Hsafe.
  assert (Hvalid : verifyNonce (get_of_object bprops "sender")
                               (get_of_object bprops "nonce") w = (Ret true, w)).
  { rewrite Hsender, Hnonce.
    rewrite (verifyNonce_account w props aprops s _ k Hst Hown Hk).
    rewrite (round_to_double_succ k Hsafe).
    cbn [strict_eq]. now rewrite Z.eqb_refl. }
  past_signature Hpass.
  rewrite (bind_ret _ _ _ _ _ Hvalid). cbn [negb].
  fold (transaction_of bprops).
  unfold broadcastTransaction, emit. cbn [bind].
  set (w1 := mkWorld (state_file w) (mempool_file w) (peer_store w)
                     (trace w ++ [BroadcastTransaction (transaction_of bprops)])).
  rewrite (bind_ret _ _ _ _ _
             (addToMempool_appends w1 pool (transaction_of bprops) Hmp Hw)).
  cbn [negb].
  set (w2 := set_file w1 MEMPOOL_FILE _).
  assert (Hmp2 : parses_to (mempool_file w2)
                   (JArr (map json_image (pool ++ [transaction_of bprops])))).
  { eexists. repeat split. }
  rewrite (bind_ret _ _ _ _ _ (isMempoolFull_counts w2 _ Hmp2)).
  rewrite length_map, length_app. cbn [List.length].
  replace (8 <? Z.of_nat (List.length pool + 1)) with false
    by (symmetry; apply Z.ltb_ge; lia).
  cbn [bind ret]. exists w2. repeat split.
Qed.

(** The answers of [submitTxn] are five: three refusals of validation, the
    failure of the mempool, the acceptance. *)
Lemma submitTxn_answers :
  forall (req_body : JsVal) (w w' : World) (r : Response),
    submitTxn req_body w = (Ret r, w') ->
    r = rejected all_fields_required \/
    r = rejected "Invalid signature" \/
    r = rejected "Invalid nonce" \/
    r = mkResponse 500 (error_body "Failed to add transaction to mempool") \/
    exists tx : JsVal, r = accepted tx.
Proof.
  intros req_body w w' r Hrun. unfold submitTxn in Hrun.
  do 5 (apply bind_ret_inv in Hrun; destruct Hrun as (?f & ?w1 & _ & Hrun)).
  match type of Hrun with
  | (if ?c then _ else _) _ = _ => destruct c
  end; [injection Hrun as <- _; now left|].
  apply bind_ret_inv in Hrun. destruct Hrun as (ok & ? & _ & Hrun).
  destruct (negb ok); [injection Hrun as <- _; right; now left|].
  apply bind_ret_inv in Hrun. destruct Hrun as (valid & ? & _ & Hrun).
  destruct (negb valid); [injection Hrun as <- _; right; right; now left|].
  apply bind_ret_inv in Hrun. destruct Hrun as (? & ? & _ & Hrun).
  apply bind_ret_inv in Hrun. destruct Hrun as (added & ? & _ & Hrun).
  destruct (negb added);
    [injection Hrun as <- _; right; right; right; now left|].
  apply bind_ret_inv in Hrun. destruct Hrun as (full & ? & _ & Hrun).
  apply bind_ret_inv in Hrun. destruct Hrun as (? & ? & _ & Hrun).
  injection Hrun as <- _. right; right; right; right. now eexists.
Qed.

(** C3, amended: no balance check is made.  First, every answer of
    [submitTxn] is one of five (fields required, invalid signature,
    invalid nonce, mempool failure, acceptance): none is about funds.
    Second, a transaction whose sender has a balance strictly below the
    amount is admitted like any other: when its fields are present, its
    signature is accepted, its nonce is the nonce of the account (a safe
    integer) plus 1, and the mempool file holds a readable, writable JSON
    array of fewer than 8 entries, it is answered 200 and appended to the
    mempool, and the ledger state is untouched. *)
Theorem balance_is_not_checked :
  (forall (req_body : JsVal) (w w' : World) (r : Response),
      submitTxn req_body w = (Ret r, w') ->
      r = rejected all_fields_required \/
      r = rejected "Invalid signature" \/
      r = rejected "Invalid nonce" \/
      r = mkResponse 500 (error_body "Failed to add transaction to mempool") \/
      exists tx : JsVal, r = accepted tx)
  /\
  (forall (w : World) (props aprops bprops : list (string * JsVal))
          (pool : list JsVal) (s : string) (balance amt k : Z),
      parses_to (state_file w) (JObj props) ->
      parses_to (mempool_file w) (JArr pool) ->
      can_write (mempool_file w) = true ->
      (List.length pool < 8)%nat ->
      passes_signature bprops ->
      get_of_object bprops "sender" = JStr s ->
      get_of_object bprops "amt" = JNum amt ->
      get_of_object bprops "nonce" = JNum (k + 1) ->
      own props s = Some (JObj aprops) ->
      own aprops "balance" = Some (JNum balance) ->
      own aprops "nonce" = Some (JNum k) ->
      safe_integer k = true ->
      balance < amt ->
      exists w' : World,
        submitTxn (JObj bprops) w = (Ret (accepted (transaction_of bprops)), w') /\
        mempool_text w'
          = Some (Encodes (JArr (pool ++ [transaction_of bprops]))) /\
        state_file w' = state_file w).
Proof.
  split; [exact submitTxn_answers|].
  intros w props aprops bprops pool s balance amt k
         Hst Hmp Hw Hlen Hpass Hsender Hamt Hnonce Hown Hbal Hk Hsafe Hlt.
  destruct (submitTxn_admits w props aprops bprops pool s k)
    as (w' & Hrun & Hfile & Hstate); try assumption.
  exists w'. split; [exact Hrun|]. split; [|exact Hstate].
  unfold mempool_text. now rewrite Hfile.
Qed.

(** A with balance 10 sends 30: the answer is the acceptance, one of the
    five, and the transaction is in the mempool. *)
Lemma balance_is_not_checked_witness :
  parses_to (state_file world_poor) (JObj (props_of ledger_poor)) /\
  parses_to (mempool_file world_poor) (JArr []) /\
  can_write (mempool_file world_poor) = true /\
  (List.length (@nil JsVal) < 8)%nat /\
  passes_signature (props_of (hashed_body "A" "B" 30 1)) /\
  get_of_object (props_of (hashed_body "A" "B" 30 1)) "sender" = JStr "A" /\
  get_of_object (props_of (hashed_body "A" "B" 30 1)) "amt" = JNum 30 /\
  get_of_object (props_of (hashed_body "A" "B" 30 1)) "nonce" = JNum (0 + 1) /\
  own (props_of ledger_poor) "A" = Some (JObj (props_of (account 10 0))) /\
  own (props_of (account 10 0)) "balance" = Some (JNum 10) /\
  own (props_of (account 10 0)) "nonce" = Some (JNum 0) /\
  safe_integer 0 = true /\
  10 < 30 /\
  (exists w' : World,
      submitTxn (JObj (props_of (hashed_body "A" "B" 30 1))) world_poor
      = (Ret (accepted (transaction_of (props_of (hashed_body "A" "B" 30 1)))), w') /\
      mempool_text w'
      = Some (Encodes (JArr ([] ++ [transaction_of (props_of (hashed_body "A" "B" 30 1))]))) /\
      state_file w' = state_file world_poor) /\
  (submitTxn pay_A_B_30_nonce_5 world_poor
   = (Ret (rejected "Invalid nonce"), world_poor) /\
   (rejected "Invalid nonce" = rejected all_fields_required \/
    rejected "Invalid nonce" = rejected "Invalid signature" \/
    rejected "Invalid nonce" = rejected "Invalid nonce" \/
    rejected "Invalid nonce"
    = mkResponse 500 (error_body "Failed to add transaction to mempool") \/
    exists tx : JsVal, rejected "Invalid nonce" = accepted tx)).
Proof.
  assert (Hst : parses_to (state_file world_poor) (JObj (props_of ledger_poor)))
    by (exists (Encodes ledger_poor); repeat split).
  assert (Hmp : parses_to (mempool_file world_poor) (JArr []))
    by (exists (Encodes (JArr [])); repeat split).
  assert (Hpass : passes_signature (props_of (hashed_body "A" "B" 30 1)))
    by (split; vm_compute; reflexivity).
  assert (Hlen : (List.length (@nil JsVal) < 8)%nat) by (simpl; lia).
  assert (Hlt : 10 < 30) by lia.
  assert (Hrun : submitTxn pay_A_B_30_nonce_5 world_poor
                 = (Ret (rejected "Invalid nonce"), world_poor))
    by (vm_compute; reflexivity).
  split; [exact Hst|]. split; [exact Hmp|]. split; [reflexivity|].
  split; [exact Hlen|]. split; [exact Hpass|].
  split; [reflexivity|]. split; [reflexivity|]. split; [reflexivity|].
  split; [reflexivity|]. split; [reflexivity|]. split; [reflexivity|].
  split; [reflexivity|]. split; [exact Hlt|]. split.
  - exact (proj2 balance_is_not_checked world_poor (props_of ledger_poor)
             (props_of (account 10 0)) (props_of (hashed_body "A" "B" 30 1))
             [] "A" 10 30 0 Hst Hmp eq_refl Hlen Hpass eq_refl eq_refl eq_refl
             eq_refl eq_refl eq_refl eq_refl Hlt).
  - split; [exact Hrun|].
    exact (proj1 balance_is_not_checked pay_A_B_30_nonce_5 world_poor world_poor
             (rejected "Invalid nonce") Hrun).
Defined.


(** ** The duplicate check of peer registration *)

(** The callback of [some] is truthy on every entry that is an object:
    when the keys differ its value is the arrow function. *)
Lemma node_matches_truthy (ip provided_port public_key : JsVal)
      (nprops : list (string * JsVal)) :
  exists r, node_matches ip provided_port public_key (JObj nprops) = Ret r /\
            truthy r = true.
Proof.
  unfold node_matches, js_field. cbn [res_bind]. eexists. split; [reflexivity|].
  unfold js_or. cbn [truthy].
  destruct (strict_eq (get_of_object nprops "public_key") public_key); reflexivity.
Qed.

(** So a directory whose first entry is an object refuses every
    candidate that got past signature and probe. *)
Lemma nonempty_directory_refuses_everyone
      (verifyNodeSignature : JsVal -> JsVal -> JsVal -> JsVal -> bool)
      (pingNode : JsVal -> JsVal -> bool)
      (ip : JsVal) (props nprops : list (string * JsVal))
      (others : list JsVal) (w : World) :
  peer_store w = JObj nprops :: others ->
  verifyNodeSignature ip (get_of_object props "provided_port")
                      (get_of_object props "sign")
                      (get_of_object props "public_key") = true ->
  pingNode ip (get_of_object props "provided_port") = true ->
  exists w',
    registerNode verifyNodeSignature pingNode (mkRequest ip (JObj props)) w
      = (Ret (mkResponse 400 (message_body "Node already exists")), w') /\
    peer_store w' = peer_store w.
Proof.
  intros Hstore Hsig Hping.
  destruct (node_matches_truthy ip (get_of_object props "provided_port")
              (get_of_object props "public_key") nprops) as (r & Hr & Htruthy).
  eexists. split.
  - unfold registerNode, js_field. cbn [bind lift req_body req_ip].
    rewrite Hsig. cbn [negb]. unfold emit at 1.
    cbn [bind]. rewrite Hping. cbn [negb].
    unfold loadPeerNodes at 1. cbn [bind peer_store lift]. rewrite Hstore.
    cbn [array_some]. rewrite Hr. cbn [res_bind]. rewrite Htruthy.
    reflexivity.
  - cbn [peer_store]. now rewrite Hstore.
Qed.

(** ** The balance endpoint *)

(** Whatever the ledger holds for an address, a 200 answer of the balance
    endpoint carries the balance 0. *)
Lemma checkBalanceByAdd_answers (address : string) (w w' : World) (r : Response) :
  checkBalanceByAdd address w = (Ret r, w') ->
  r = mkResponse 404 (error_body "Address not found in blockchain state") \/
  r = mkResponse 200 (JObj [("address", JStr address); ("balance", JNum 0)]).
Proof.
  unfold checkBalanceByAdd, bind.
  destruct (loadBlockchainState w) as [[state| |] w1]; try discriminate.
  unfold lift. destruct (js_index state (JStr address)) as [account| |];
    try discriminate.
  destruct (negb (truthy account)); unfold ret; intros [= <- _]; auto.
Qed.

(** ** Replay *)

Lemma transaction_is_json (bprops : list (string * JsVal)) :
  is_json (JObj bprops) = true ->
  some_field_falsy bprops = false ->
  is_json (transaction_of bprops) = true.
Proof.
  intros Hjson Hfields.
  assert (Hget : forall name, inherited name = false ->
                              truthy (get_of_object bprops name) = true ->
                              is_json (get_of_object bprops name) = true).
  { intros name Hin. unfold get_of_object.
    destruct (own bprops name) as [v|] eqn:Hown.
    - intros _. clear Hfields. revert Hjson. cbn [is_json].
      induction bprops as [|[k e] l IH]; [discriminate|].
      cbn [own] in Hown. intros Hall. apply andb_prop in Hall as [He Hl].
      destruct (k =? name)%string.
      + now injection Hown as <-.
      + now apply IH.
    - rewrite Hin. discriminate. }
  unfold some_field_falsy, required_fields in Hfields. cbn [existsb] in Hfields.
  repeat (apply orb_false_elim in Hfields as [?H Hfields]).
  repeat match goal with
         | H : negb _ = false |- _ =>
             apply negb_false_iff in H; apply Hget in H; [|reflexivity]
         end.
  unfold transaction_of, make_transaction. cbn [is_json].
  repeat (apply andb_true_intro; split); trivial.
Qed.

(** Every transaction that is admitted once is admitted again when it is
    submitted a second time with no block in between: the nonce of the
    ledger state has not moved. *)
Lemma admitted_twice :
  forall (w : World) (props aprops bprops : list (string * JsVal))
         (pool : list JsVal) (s : string) (k : Z),
    parses_to (state_file w) (JObj props) ->
    parses_to (mempool_file w) (JArr pool) ->
    can_write (mempool_file w) = true ->
    (List.length pool < 7)%nat ->
    is_json (JObj bprops) = true ->
    passes_signature bprops ->
    get_of_object bprops "sender" = JStr s ->
    get_of_object bprops "nonce" = JNum (k + 1) ->
    own props s = Some (JObj aprops) ->
    own aprops "nonce" = Some (JNum k) ->
    safe_integer k = true ->
    exists w1 w2 : World,
      submitTxn (JObj bprops) w = (Ret (accepted (transaction_of bprops)), w1) /\
      submitTxn (JObj bprops) w1 = (Ret (accepted (transaction_of bprops)), w2) /\
      mempool_text w2
        = Some (Encodes (JArr (pool ++ [transaction_of bprops; transaction_of bprops]))).
Proof.
  intros w props aprops bprops pool s k
         Hst Hmp Hw Hlen Hjson Hpass Hsender Hnonce Hown Hk Hsafe.
  destruct (submitTxn_admits w props aprops bprops pool s k)
    as (w1 & Hrun1 & Hfile1 & Hstate1); try assumption; [lia|].
  assert (Hpool : map json_image pool = pool).
  { destruct Hmp as (text & _ & _ & Hp). apply JSON_parse_stable in Hp.
    rewrite json_image_array in Hp. now injection Hp. }
  assert (Htx : json_image (transaction_of bprops) = transaction_of bprops).
  { apply json_image_id, transaction_is_json; [exact Hjson|apply Hpass]. }
  destruct (submitTxn_admits w1 props aprops bprops
              (pool ++ [transaction_of bprops]) s k)
    as (w2 & Hrun2 & Hfile2 & _); try assumption.
  - now rewrite Hstate1.
  - rewrite Hfile1. eexists. repeat split.
    cbn [JSON_parse]. rewrite json_image_array, map_app, Hpool.
    cbn [map]. now rewrite Htx.
  - now rewrite Hfile1.
  - rewrite length_app. cbn [List.length]. lia.
  - exists w1, w2. split; [exact Hrun1|]. split; [exact Hrun2|].
    unfold mempool_text. rewrite Hfile2, <- app_assoc. reflexivity.
Qed.

(** ** What the answers never say *)

(** No answer of the handlers names an unknown sender or insufficient
    funds: the texts of the 400 answers are three. *)
Lemma reported_errors (r : Response) (e : ValidationError) :
  reported r = Some e ->
  e = InvalidNonce \/ e = InvalidSignature \/ e = MalformedTransaction.
Proof.
  unfold reported. destruct (body r) as [| | | | | | |props|]; try discriminate.
  destruct props as [|[k [| | | | |msg| | |]] [|? ?]]; try discriminate.
  repeat match goal with
         | |- context [if ?c then _ else _] => destruct c
         end; try discriminate; intros [= <-]; auto.
Qed.

(** ** The balance endpoint on a ledger that is a JSON object *)

Lemma checkBalanceByAdd_unknown_address (w : World)
      (props : list (string * JsVal)) (address : string) :
  parses_to (state_file w) (JObj props) ->
  own props address = None ->
  inherited address = false ->
  checkBalanceByAdd address w
  = (Ret (mkResponse 404 (error_body "Address not found in blockchain state")), w).
Proof.
  intros Hst Hown Hin. unfold checkBalanceByAdd.
  rewrite (bind_ret _ _ w w (JObj props)) by (now apply loadBlockchainState_parses).
  unfold js_index, get_of_object. cbn [to_string res_bind].
  now rewrite Hown, Hin.
Qed.

Lemma checkBalanceByAdd_known_address (w : World)
      (props : list (string * JsVal)) (address : string) (account : JsVal) :
  parses_to (state_file w) (JObj props) ->
  own props address = Some account ->
  truthy account = true ->
  checkBalanceByAdd address w
  = (Ret (mkResponse 200 (JObj [("address", JStr address); ("balance", JNum 0)])), w).
Proof.
  intros Hst Hown Htruthy. unfold checkBalanceByAdd.
  rewrite (bind_ret _ _ w w (JObj props)) by (now apply loadBlockchainState_parses).
  unfold js_index, get_of_object. cbn [to_string res_bind].
  rewrite Hown. cbn [bind lift]. now rewrite Htruthy.
Qed.

(* ================================================================== *)
(** * Further properties of the utilities and of the handlers *)

(** ** Files *)

Lemma file_at_set_file (w : World) (p : Path) (f : File) :
  file_at (set_file w p f) p = f.
Proof. destruct p; reflexivity. Qed.

(** X1: [ensureFileExists] never overwrites: called a second time on the
    same path, with any initial content, it does nothing, so the two
    calls in a row behave as the first one alone, on every world. *)
Theorem ensureFileExists_twice :
  forall (p : Path) (a b : Text) (w : World),
    bind (ensureFileExists p a) (fun _ => ensureFileExists p b) w
    = ensureFileExists p a w.
Proof.
  intros p a b w. unfold bind at 1.
  destruct (data (file_at w p)) as [t|] eqn:Hd.
  - rewrite (ensureFileExists_present p a w t Hd).
    apply (ensureFileExists_present p b w t Hd).
  - unfold ensureFileExists at 1 3. unfold bind, existsSync, writeFileSync.
    rewrite Hd. cbn [negb]. destruct (can_write (file_at w p)); [|reflexivity].
    apply ensureFileExists_present with a.
    now rewrite file_at_set_file.
Qed.

(** X2: a JSON value saved with [saveBlockchainState] is what
    [loadBlockchainState] returns next, when the state file can be
    written and read. *)
Theorem save_then_load :
  forall (state : JsVal) (w : World),
    is_json state = true ->
    can_write (state_file w) = true ->
    can_read (state_file w) = true ->
    exists w1 : World,
      saveBlockchainState state w = (Ret tt, w1) /\
      loadBlockchainState w1 = (Ret state, w1).
Proof.
  intros state w Hjson Hw Hr.
  unfold saveBlockchainState, try_catch, bind, lift, JSON_stringify, writeFileSync.
  rewrite (is_json_serialisable state Hjson). cbn [file_at]. rewrite Hw, Hr.
  eexists. split; [reflexivity|].
  apply loadBlockchainState_parses.
  exists (Encodes state). cbn [set_file state_file data can_read JSON_parse].
  repeat split. now rewrite (json_image_id state Hjson).
Qed.

Lemma save_then_load_witness :
  is_json ledger_A = true /\
  can_write (state_file world_poor) = true /\
  can_read (state_file world_poor) = true /\
  exists w1 : World,
    saveBlockchainState ledger_A world_poor = (Ret tt, w1) /\
    loadBlockchainState w1 = (Ret ledger_A, w1).
Proof.
  split; [reflexivity|]. split; [reflexivity|]. split; [reflexivity|].
  apply (save_then_load ledger_A world_poor); reflexivity.
Defined.

(** X3: [saveBlockchainState] does not pass on a failed write: it returns
    normally, the files are as they were, and the failure is only on the
    console. *)
Theorem save_failure_is_swallowed :
  forall (state : JsVal) (w : World),
    serialisable state = true ->
    can_write (state_file w) = false ->
    saveBlockchainState state w
    = (Ret tt, logged w "Error saving blockchain state:").
Proof.
  intros state w Hs Hw.
  unfold saveBlockchainState, try_catch, bind, lift, JSON_stringify, writeFileSync.
  rewrite Hs. cbn [file_at]. now rewrite Hw.
Qed.

Lemma save_failure_is_swallowed_witness :
  serialisable ledger_A = true /\
  can_write (state_file world_no_directory) = false /\
  saveBlockchainState ledger_A world_no_directory
  = (Ret tt, logged world_no_directory "Error saving blockchain state:").
Proof.
  split; [reflexivity|]. split; [reflexivity|].
  apply (save_failure_is_swallowed ledger_A world_no_directory); reflexivity.
Defined.

(** ** The mempool file *)

(** X4: on a node that has no mempool file yet, [addToMempool] creates it
    and the file then holds the one transaction; the state file is not
    touched. *)
Theorem addToMempool_creates_the_file :
  forall (tx : JsVal) (w : World),
    data (mempool_file w) = None ->
    can_write (mempool_file w) = true ->
    can_read (mempool_file w) = true ->
    exists w' : World,
      addToMempool tx w = (Ret true, w') /\
      mempool_file w' = mkFile (Some (Encodes (JArr [tx]))) true true /\
      state_file w' = state_file w /\ trace w' = trace w.
Proof.
  intros tx w Hd Hw Hr.
  unfold addToMempool, ensureFileExists, default_content, try_catch, bind,
    existsSync, readFileSync, writeFileSync, lift, ret.
  cbn [file_at]. rewrite Hd. cbn [negb]. rewrite Hw, Hr.
  cbn [set_file mempool_file data can_read can_write JSON_parse json_image
       js_push JSON_stringify serialisable app].
  eexists. repeat split.
Qed.

Lemma addToMempool_creates_the_file_witness :
  data (mempool_file world_one_peer) = None /\
  can_write (mempool_file world_one_peer) = true /\
  can_read (mempool_file world_one_peer) = true /\
  exists w' : World,
    addToMempool pay_A_B_30 world_one_peer = (Ret true, w') /\
    mempool_file w' = mkFile (Some (Encodes (JArr [pay_A_B_30]))) true true /\
    state_file w' = state_file world_one_peer /\ trace w' = trace world_one_peer.
Proof.
  split; [reflexivity|]. split; [reflexivity|]. split; [reflexivity|].
  apply (addToMempool_creates_the_file pay_A_B_30 world_one_peer); reflexivity.
Defined.

(** X5: when the mempool file cannot be read, or its text is not that of
    a JSON array (empty, not JSON, an object, [null], a number, ...),
    [addToMempool] returns [false], leaves both files as they were and
    reports on the console. *)
Theorem addToMempool_needs_an_array :
  forall (tx : JsVal) (w : World) (text : Text),
    data (mempool_file w) = Some text ->
    (can_read (mempool_file w) = false \/
     forall pool : list JsVal, JSON_parse text <> Ret (JArr pool)) ->
    addToMempool tx w
    = (Ret false, logged w "Error adding transaction to mempool:").
Proof.
  intros tx w text Hd Hbad. unfold addToMempool.
  rewrite (bind_ret _ _ w w tt)
    by (now apply ensureFileExists_present with text).
  unfold try_catch, bind, readFileSync, lift. cbn [file_at]. rewrite Hd.
  destruct (can_read (mempool_file w)); [|reflexivity].
  destruct Hbad as [Hbad|Hbad]; [discriminate|].
  destruct (JSON_parse text) as [v| |] eqn:Hp.
  - pose proof (JSON_parse_is_json text v Hp) as Hjson.
    destruct v; try reflexivity; try discriminate.
    now destruct (Hbad elems).
  - reflexivity.
  - destruct text; discriminate.
Qed.

Lemma addToMempool_needs_an_array_witness :
  data (mempool_file (set_file world_A MEMPOOL_FILE (usable (Some (Encodes (JObj []))))))
  = Some (Encodes (JObj [])) /\
  addToMempool pay_A_B_30
    (set_file world_A MEMPOOL_FILE (usable (Some (Encodes (JObj [])))))
  = (Ret false,
     logged (set_file world_A MEMPOOL_FILE (usable (Some (Encodes (JObj [])))))
            "Error adding transaction to mempool:").
Proof.
  split; [reflexivity|].
  apply (addToMempool_needs_an_array pay_A_B_30
           (set_file world_A MEMPOOL_FILE (usable (Some (Encodes (JObj [])))))
           (Encodes (JObj []))).
  - reflexivity.
  - right. intros pool. cbn [JSON_parse json_image]. discriminate.
Defined.

(** X6: on a mempool file that holds a JSON array, [isMempoolFull]
    answers [true] exactly when the array has 9 entries or more (8 entries
    are not full), and changes nothing. *)
Theorem isMempoolFull_threshold :
  forall (w : World) (pool : list JsVal),
    parses_to (mempool_file w) (JArr pool) ->
    exists b : bool,
      isMempoolFull w = (Ret b, w) /\
      (b = true <-> (9 <= List.length pool)%nat).
Proof.
  intros w pool Hmp. exists (8 <? Z.of_nat (List.length pool)).
  split; [now apply isMempoolFull_counts|].
  rewrite Z.ltb_lt. lia.
Qed.

Lemma isMempoolFull_threshold_witness :
  parses_to (mempool_file world_A) (JArr []) /\
  exists b : bool,
    isMempoolFull world_A = (Ret b, world_A) /\
    (b = true <-> (9 <= List.length (@nil JsVal))%nat).
Proof.
  split; [exists (Encodes (JArr [])); repeat split|].
  apply (isMempoolFull_threshold world_A []).
  exists (Encodes (JArr [])). repeat split.
Defined.

(** X7: when the mempool file cannot be read or parsed, or holds [null],
    [isMempoolFull] answers [false] (not full) and reports on the console
    instead of failing. *)
Theorem isMempoolFull_fails_to_false :
  forall (w : World) (text : Text),
    data (mempool_file w) = Some text ->
    (can_read (mempool_file w) = false \/ text = Empty \/ text = Malformed \/
     JSON_parse text = Ret JNull) ->
    isMempoolFull w = (Ret false, logged w "Error accessing mempool:").
Proof.
  intros w text Hd Hbad. unfold isMempoolFull.
  rewrite (bind_ret _ _ w w tt)
    by (now apply ensureFileExists_present with text).
  unfold try_catch, bind, readFileSync, lift. cbn [file_at]. rewrite Hd.
  destruct (can_read (mempool_file w)); [|reflexivity].
  destruct Hbad as [Hbad|[->|[->|Hbad]]];
    [discriminate|reflexivity|reflexivity|].
  now rewrite Hbad.
Qed.

Lemma isMempoolFull_fails_to_false_witness :
  data (mempool_file (set_file world_A MEMPOOL_FILE (usable (Some Malformed))))
  = Some Malformed /\
  isMempoolFull (set_file world_A MEMPOOL_FILE (usable (Some Malformed)))
  = (Ret false,
     logged (set_file world_A MEMPOOL_FILE (usable (Some Malformed)))
            "Error accessing mempool:").
Proof.
  split; [reflexivity|].
  apply (isMempoolFull_fails_to_false
           (set_file world_A MEMPOOL_FILE (usable (Some Malformed))) Malformed).
  - reflexivity.
  - right. right. left. reflexivity.
Defined.

(** ** The nonce check on unusual ledgers and requests *)

(** X8: the nonce is compared without conversion: against an account
    whose nonce is a number, a nonce sent as a string is refused,
    whatever its digits. *)
Theorem verifyNonce_refuses_a_string :
  forall (w : World) (props aprops : list (string * JsVal))
         (s digits : string) (k : Z),
    parses_to (state_file w) (JObj props) ->
    own props s = Some (JObj aprops) ->
    own aprops "nonce" = Some (JNum k) ->
    verifyNonce (JStr s) (JStr digits) w = (Ret false, w).
Proof.
  intros w props aprops s digits k Hst Hown Hk.
  now rewrite (verifyNonce_account w props aprops s (JStr digits) k Hst Hown Hk).
Qed.

Lemma verifyNonce_refuses_a_string_witness :
  parses_to (state_file world_A) (JObj (props_of ledger_A)) /\
  own (props_of ledger_A) "A" = Some (JObj (props_of (account 100 0))) /\
  own (props_of (account 100 0)) "nonce" = Some (JNum 0) /\
  verifyNonce (JStr "A") (JStr "1") world_A = (Ret false, world_A).
Proof.
  split; [exists (Encodes ledger_A); repeat split|].
  split; [reflexivity|]. split; [reflexivity|].
  apply (verifyNonce_refuses_a_string world_A (props_of ledger_A)
           (props_of (account 100 0)) "A" "1" 0).
  - exists (Encodes ledger_A). repeat split.
  - reflexivity.
  - reflexivity.
Defined.

(** X9: an address whose entry in the ledger is falsy ([null], [false],
    0 or the empty string) is treated as having no account: the nonce
    check fails for every nonce. *)
Theorem verifyNonce_falsy_account :
  forall (w : World) (props : list (string * JsVal)) (s : string)
         (entry nonce : JsVal),
    parses_to (state_file w) (JObj props) ->
    own props s = Some entry ->
    truthy entry = false ->
    verifyNonce (JStr s) nonce w = (Ret false, w).
Proof.
  intros w props s entry nonce Hst Hown Hfalsy. unfold verifyNonce.
  rewrite (bind_ret _ _ w w (JObj props)) by (now apply loadBlockchainState_parses).
  unfold js_index, get_of_object. cbn [to_string res_bind]. rewrite Hown.
  cbn [bind lift]. now rewrite Hfalsy.
Qed.

Lemma verifyNonce_falsy_account_witness :
  parses_to (state_file (set_file world_A STATE_FILE
                           (usable (Some (Encodes (JObj [("A", JNull)]))))))
            (JObj [("A", JNull)]) /\
  own [("A", JNull)] "A" = Some JNull /\
  truthy JNull = false /\
  verifyNonce (JStr "A") (JNum 1)
    (set_file world_A STATE_FILE (usable (Some (Encodes (JObj [("A", JNull)])))))
  = (Ret false,
     set_file world_A STATE_FILE (usable (Some (Encodes (JObj [("A", JNull)]))))).
Proof.
  split; [exists (Encodes (JObj [("A", JNull)])); repeat split|].
  split; [reflexivity|]. split; [reflexivity|].
  apply (verifyNonce_falsy_account
           (set_file world_A STATE_FILE (usable (Some (Encodes (JObj [("A", JNull)])))))
           [("A", JNull)] "A" JNull (JNum 1)).
  - exists (Encodes (JObj [("A", JNull)])). repeat split.
  - reflexivity.
  - reflexivity.
Defined.

(** X10: when the ledger stores the nonce of an account as a string,
    [account.nonce + 1] is a concatenation: the one nonce that passes is
    the string made of the stored text followed by "1". *)
Theorem verifyNonce_string_in_ledger :
  forall (w : World) (props aprops : list (string * JsVal))
         (s stored : string) (nonce : JsVal),
    parses_to (state_file w) (JObj props) ->
    own props s = Some (JObj aprops) ->
    own aprops "nonce" = Some (JStr stored) ->
    exists b : bool,
      verifyNonce (JStr s) nonce w = (Ret b, w) /\
      (b = true <-> nonce = JStr (stored ++ "1")%string).
Proof.
  intros w props aprops s stored nonce Hst Hown Hk.
  exists (strict_eq nonce (JStr (stored ++ "1")%string)). split.
  - unfold verifyNonce.
    rewrite (bind_ret _ _ w w (JObj props)) by (now apply loadBlockchainState_parses).
    unfold js_index, get_of_object. cbn [to_string res_bind]. rewrite Hown.
    unfold bind, lift, ret. cbn [truthy negb js_field]. unfold get_of_object.
    rewrite Hk. reflexivity.
  - split.
    + destruct nonce; cbn [strict_eq]; try discriminate.
      intros E. apply String.eqb_eq in E. now subst.
    + intros ->. cbn [strict_eq]. apply String.eqb_refl.
Qed.

Lemma verifyNonce_string_in_ledger_witness :
  parses_to (state_file (set_file world_A STATE_FILE
               (usable (Some (Encodes (JObj [("A", JObj [("nonce", JStr "0")])]))))))
            (JObj [("A", JObj [("nonce", JStr "0")])]) /\
  own [("A", JObj [("nonce", JStr "0")])] "A" = Some (JObj [("nonce", JStr "0")]) /\
  own [("nonce", JStr "0")] "nonce" = Some (JStr "0") /\
  exists b : bool,
    verifyNonce (JStr "A") (JStr "01")
      (set_file world_A STATE_FILE
         (usable (Some (Encodes (JObj [("A", JObj [("nonce", JStr "0")])])))))
    = (Ret b,
       set_file world_A STATE_FILE
         (usable (Some (Encodes (JObj [("A", JObj [("nonce", JStr "0")])]))))) /\
    (b = true <-> JStr "01" = JStr ("0" ++ "1")%string).
Proof.
  split; [eexists; repeat split|].
  split; [reflexivity|]. split; [reflexivity|].
  apply (verifyNonce_string_in_ledger
           (set_file world_A STATE_FILE
              (usable (Some (Encodes (JObj [("A", JObj [("nonce", JStr "0")])])))))
           [("A", JObj [("nonce", JStr "0")])] [("nonce", JStr "0")]
           "A" "0" (JStr "01")).
  - eexists. repeat split.
  - reflexivity.
  - reflexivity.
Defined.

(** ** The signed text *)

Lemma append_assoc (a b c : string) :
  ((a ++ b) ++ c = a ++ (b ++ c))%string.
Proof. induction a as [|ch a IH]; [reflexivity|]. cbn. now rewrite IH. Qed.

Lemma length_append (a b : string) :
  String.length (a ++ b)%string = (String.length a + String.length b)%nat.
Proof. induction a as [|ch a IH]; [reflexivity|]. cbn. now rewrite IH. Qed.

(** X11: the signed text has no field boundaries: characters moved from
    the end of the sender to the start of the recipient leave the verdict
    of [verifySignature] unchanged, so a signature accepted for one
    transfer is accepted for the other. *)
Theorem verifySignature_ignores_field_boundaries :
  forall (s x r : string) (amt nonce sign : JsVal),
    verifySignature (JStr (s ++ x)%string) (JStr r) amt nonce sign
    = verifySignature (JStr s) (JStr (x ++ r)%string) amt nonce sign.
Proof.
  intros s x r amt nonce sign.
  unfold verifySignature, signed_data. cbn [to_string res_bind].
  destruct (to_string amt) as [a| |]; cbn [res_bind]; try reflexivity.
  destruct (to_string nonce) as [n| |]; cbn [res_bind]; try reflexivity.
  now rewrite !append_assoc.
Qed.

(** The digest has 64 characters, whatever the text. *)
Lemma sha256_hex_length (data : string) :
  String.length (Sha256.sha256_hex data) = 64%nat.
Proof.
  with_strategy transparent [Sha256.sha256_hex] (unfold Sha256.sha256_hex).
  cbv zeta. rewrite !length_append. reflexivity.
Qed.

(** X12: a signature that is not a string of 64 characters is never
    accepted. *)
Theorem verifySignature_refuses_other_lengths :
  forall (sender recipient amt nonce : JsVal) (data sign : string),
    signed_data sender recipient amt nonce = Ret data ->
    String.length sign <> 64%nat ->
    verifySignature sender recipient amt nonce (JStr sign) = Ret false.
Proof.
  intros sender recipient amt nonce data sign Hdata Hlen.
  unfold verifySignature. rewrite Hdata. cbn [res_bind strict_eq]. f_equal.
  apply String.eqb_neq. intros E. apply Hlen. rewrite <- E.
  apply sha256_hex_length.
Qed.

Lemma verifySignature_refuses_other_lengths_witness :
  signed_data (JStr "A") (JStr "B") (JNum 30) (JNum 1) = Ret "AB301" /\
  String.length "9c29bd09" <> 64%nat /\
  verifySignature (JStr "A") (JStr "B") (JNum 30) (JNum 1) (JStr "9c29bd09")
  = Ret false.
Proof.
  split; [reflexivity|]. split; [simpl; lia|].
  apply (verifySignature_refuses_other_lengths
           (JStr "A") (JStr "B") (JNum 30) (JNum 1) "AB301" "9c29bd09").
  - reflexivity.
  - simpl; lia.
Defined.

(** ** What a computation maintains *)

Section Maintained.
Variable R : World -> World -> Prop.
Hypothesis R_refl : forall w, R w w.
Hypothesis R_trans : forall a b c, R a b -> R b c -> R a c.

Lemma maintains_same {A : Type} (m : M A) :
  (forall w, snd (m w) = w) -> maintains R m.
Proof.
  intros Hsame w w' r Hrun. specialize (Hsame w). rewrite Hrun in Hsame.
  cbn [snd] in Hsame. subst w'. apply R_refl.
Qed.

Lemma maintains_bind {A B : Type} (m : M A) (k : A -> M B) :
  maintains R m -> (forall a, maintains R (k a)) -> maintains R (bind m k).
Proof.
  intros Hm Hk w w' r. unfold bind.
  destruct (m w) as [[a|e|] w1] eqn:Hrun.
  - intros Hrest. apply R_trans with w1; [now apply (Hm w w1 (Ret a))|].
    now apply (Hk a w1 w' r).
  - intros [= _ <-]. now apply (Hm w w1 (Throw e)).
  - intros [= _ <-]. now apply (Hm w w1 Outside).
Qed.

Lemma maintains_try_catch {A : Type} (m : M A) (handler : Exn -> M A) :
  maintains R m -> (forall e, maintains R (handler e)) ->
  maintains R (try_catch m handler).
Proof.
  intros Hm Hh w w' r. unfold try_catch.
  destruct (m w) as [[a|e|] w1] eqn:Hrun.
  - intros [= _ <-]. now apply (Hm w w1 (Ret a)).
  - intros Hrest. apply R_trans with w1; [now apply (Hm w w1 (Throw e))|].
    now apply (Hh e w1 w' r).
  - intros [= _ <-]. now apply (Hm w w1 Outside).
Qed.

Lemma maintains_readFileSync (p : Path) : maintains R (readFileSync p).
Proof.
  apply maintains_same. intros w. unfold readFileSync.
  destruct (data (file_at w p)); [destruct (can_read (file_at w p))|]; reflexivity.
Qed.

End Maintained.

Lemma ledger_kept_refl (w : World) : ledger_kept w w.
Proof. intros _. reflexivity. Qed.

Lemma ledger_kept_trans (a b c : World) :
  ledger_kept a b -> ledger_kept b c -> ledger_kept a c.
Proof.
  unfold ledger_kept. intros Hab Hbc Ha. specialize (Hab Ha).
  rewrite <- Hab. apply Hbc. now rewrite Hab.
Qed.

Lemma files_kept_refl (w : World) : files_kept w w.
Proof. split; reflexivity. Qed.

Lemma files_kept_trans (a b c : World) :
  files_kept a b -> files_kept b c -> files_kept a c.
Proof. intros [H1 H2] [H3 H4]. split; congruence. Qed.

Lemma directory_kept_refl (w : World) : directory_kept w w.
Proof. reflexivity. Qed.

Lemma directory_kept_trans (a b c : World) :
  directory_kept a b -> directory_kept b c -> directory_kept a c.
Proof. unfold directory_kept. congruence. Qed.

(** The steps a handler is made of, one relation at a time. *)
Ltac maintained_by refl trans known :=
  repeat first
    [ known
    | apply (maintains_bind _ trans); [|intros ?]
    | apply (maintains_try_catch _ trans); [|intros ?]
    | apply (maintains_readFileSync _ refl)
    | apply (maintains_same _ refl); intros ?; reflexivity
    | match goal with
      | |- maintains _ (if ?c then _ else _) => destruct c
      end ].

Lemma ledger_kept_emit (e : Event) : maintains ledger_kept (emit e).
Proof. intros w w' r [= _ <-] _. reflexivity. Qed.

Lemma ledger_kept_write_mempool (t : Text) :
  maintains ledger_kept (writeFileSync MEMPOOL_FILE t).
Proof.
  intros w w' r. unfold writeFileSync. cbn [file_at].
  destruct (can_write (mempool_file w)); intros [= _ <-] _; reflexivity.
Qed.

Lemma ledger_kept_ensure (p : Path) (init : Text) :
  maintains ledger_kept (ensureFileExists p init).
Proof.
  intros w w' r. unfold ensureFileExists, bind, existsSync, writeFileSync, ret.
  destruct p; cbn [file_at set_file].
  - destruct (data (state_file w)) eqn:Hd; cbn [negb].
    + intros [= _ <-] _. reflexivity.
    + intros _ Hpresent. now destruct Hpresent.
  - destruct (data (mempool_file w)); cbn [negb];
      [|destruct (can_write (mempool_file w))];
      intros [= _ <-] _; reflexivity.
Qed.

Lemma ledger_kept_loadBlockchainState : maintains ledger_kept loadBlockchainState.
Proof.
  unfold loadBlockchainState, console_error.
  maintained_by ledger_kept_refl ledger_kept_trans
    ltac:(first [apply ledger_kept_ensure | apply ledger_kept_emit]).
Qed.

Lemma ledger_kept_verifyNonce (sender nonce : JsVal) :
  maintains ledger_kept (verifyNonce sender nonce).
Proof.
  unfold verifyNonce.
  maintained_by ledger_kept_refl ledger_kept_trans
    ltac:(apply ledger_kept_loadBlockchainState).
Qed.

Lemma ledger_kept_addToMempool (tx : JsVal) :
  maintains ledger_kept (addToMempool tx).
Proof.
  unfold addToMempool, console_error.
  maintained_by ledger_kept_refl ledger_kept_trans
    ltac:(first [apply ledger_kept_ensure | apply ledger_kept_emit
                | apply ledger_kept_write_mempool]).
Qed.

Lemma ledger_kept_isMempoolFull : maintains ledger_kept isMempoolFull.
Proof.
  unfold isMempoolFull, console_error.
  maintained_by ledger_kept_refl ledger_kept_trans
    ltac:(first [apply ledger_kept_ensure | apply ledger_kept_emit]).
Qed.

(** ** Transaction submission: the other ways out *)

(** X13: submitting a transaction never writes the ledger state: whatever
    the request and however the handler ends (an answer, an exception),
    a state file that existed is left exactly as it was. *)
Theorem submitTxn_keeps_the_ledger :
  forall (req_body : JsVal) (w w' : World) (r : Res Response),
    submitTxn req_body w = (r, w') ->
    data (state_file w) <> None ->
    state_file w' = state_file w.
Proof.
  intros req_body. change (maintains ledger_kept (submitTxn req_body)).
  unfold submitTxn, broadcastTransaction, broadcastBlock, unbound, mineBlock,
    clearMempool.
  maintained_by ledger_kept_refl ledger_kept_trans
    ltac:(first [ apply ledger_kept_verifyNonce | apply ledger_kept_addToMempool
                | apply ledger_kept_isMempoolFull | apply ledger_kept_emit ]).
Qed.

Lemma submitTxn_keeps_the_ledger_witness :
  submitTxn ninth_body world_A
  = (fst (submitTxn ninth_body world_A), snd (submitTxn ninth_body world_A)) /\
  data (state_file world_A) <> None /\
  state_file (snd (submitTxn ninth_body world_A)) = state_file world_A.
Proof.
  split; [apply surjective_pairing|]. split; [discriminate|].
  apply (submitTxn_keeps_the_ledger ninth_body world_A
           (snd (submitTxn ninth_body world_A))
           (fst (submitTxn ninth_body world_A))).
  - apply surjective_pairing.
  - discriminate.
Defined.

(** X14: a request whose five fields are present but whose signature is
    not the expected digest is answered 400 "Invalid signature", and the
    node is left as it found it: the ledger was not read, nothing was
    broadcast. *)
Theorem wrong_signature_is_rejected :
  forall (props : list (string * JsVal)) (w : World),
    some_field_falsy props = false ->
    verifySignature
      (get_of_object props "sender") (get_of_object props "recipient")
      (get_of_object props "amt") (get_of_object props "nonce")
      (get_of_object props "sign") = Ret false ->
    submitTxn (JObj props) w = (Ret (rejected "Invalid signature"), w).
Proof.
  intros props w Hfields Hsign.
  unfold submitTxn, js_field. cbn [bind lift].
  rewrite presence_check, Hfields, Hsign. reflexivity.
Qed.

Lemma wrong_signature_is_rejected_witness :
  some_field_falsy (props_of (txn_body "A" "B" 30 1 "forged")) = false /\
  verifySignature (JStr "A") (JStr "B") (JNum 30) (JNum 1) (JStr "forged")
  = Ret false /\
  submitTxn (JObj (props_of (txn_body "A" "B" 30 1 "forged"))) world_A
  = (Ret (rejected "Invalid signature"), world_A).
Proof.
  split; [reflexivity|]. split; [vm_compute; reflexivity|].
  apply (wrong_signature_is_rejected
           (props_of (txn_body "A" "B" 30 1 "forged")) world_A).
  - reflexivity.
  - vm_compute; reflexivity.
Defined.

(** X15: a field that is an object with a property of its own named
    [toString] cannot be written into the signed text: the handler ends
    in a TypeError, with no answer, before anything is read or written. *)
Theorem submitTxn_unprintable_sender :
  forall (props oprops : list (string * JsVal)) (v : JsVal) (w : World),
    some_field_falsy props = false ->
    get_of_object props "sender" = JObj oprops ->
    own oprops "toString" = Some v ->
    submitTxn (JObj props) w = (Throw TypeError, w).
Proof.
  intros props oprops v w Hfields Hsender Hown.
  unfold submitTxn, js_field. cbn [bind lift].
  rewrite presence_check, Hfields.
  unfold verifySignature, signed_data. rewrite Hsender.
  cbn [to_string]. rewrite Hown. reflexivity.
Qed.

Lemma submitTxn_unprintable_sender_witness :
  some_field_falsy [("sender", JObj [("toString", JNum 1)]); ("recipient", JStr "B");
                    ("amt", JNum 30); ("nonce", JNum 1); ("sign", JStr "s")] = false /\
  get_of_object [("sender", JObj [("toString", JNum 1)]); ("recipient", JStr "B");
                 ("amt", JNum 30); ("nonce", JNum 1); ("sign", JStr "s")] "sender"
  = JObj [("toString", JNum 1)] /\
  own [("toString", JNum 1)] "toString" = Some (JNum 1) /\
  submitTxn (JObj [("sender", JObj [("toString", JNum 1)]); ("recipient", JStr "B");
                   ("amt", JNum 30); ("nonce", JNum 1); ("sign", JStr "s")]) world_A
  = (Throw TypeError, world_A).
Proof.
  split; [reflexivity|]. split; [reflexivity|]. split; [reflexivity|].
  apply (submitTxn_unprintable_sender
           [("sender", JObj [("toString", JNum 1)]); ("recipient", JStr "B");
            ("amt", JNum 30); ("nonce", JNum 1); ("sign", JStr "s")]
           [("toString", JNum 1)] (JNum 1) world_A); reflexivity.
Defined.

(** X16: the transaction is broadcast before the mempool is written.  When
    the mempool file then cannot be read or does not hold a JSON array,
    the answer is 500 "Failed to add transaction to mempool", both files
    are as they were, and the broadcast has already happened. *)
Theorem submitTxn_mempool_failure :
  forall (w : World) (bprops : list (string * JsVal)) (text : Text),
    passes_signature bprops ->
    verifyNonce (get_of_object bprops "sender") (get_of_object bprops "nonce") w
      = (Ret true, w) ->
    data (mempool_file w) = Some text ->
    (can_read (mempool_file w) = false \/
     forall pool : list JsVal, JSON_parse text <> Ret (JArr pool)) ->
    submitTxn (JObj bprops) w
    = (Ret (mkResponse 500 (error_body "Failed to add transaction to mempool")),
       logged (broadcast w (transaction_of bprops))
              "Error adding transaction to mempool:").
Proof.
  intros w bprops text Hpass Hvalid Hd Hbad.
  past_signature Hpass.
  rewrite (bind_ret _ _ _ _ _ Hvalid). cbn [negb].
  fold (transaction_of bprops).
  unfold broadcastTransaction, emit. cbn [bind].
  fold (broadcast w (transaction_of bprops)).
  rewrite (bind_ret _ _ _ _ _
             (addToMempool_needs_an_array (transaction_of bprops)
                (broadcast w (transaction_of bprops)) text Hd Hbad)).
  reflexivity.
Qed.

Lemma submitTxn_mempool_failure_witness :
  passes_signature (props_of pay_A_B_30) /\
  verifyNonce (JStr "A") (JNum 1)
    (set_file world_A MEMPOOL_FILE (usable (Some Malformed)))
  = (Ret true, set_file world_A MEMPOOL_FILE (usable (Some Malformed))) /\
  data (mempool_file (set_file world_A MEMPOOL_FILE (usable (Some Malformed))))
  = Some Malformed /\
  submitTxn (JObj (props_of pay_A_B_30))
    (set_file world_A MEMPOOL_FILE (usable (Some Malformed)))
  = (Ret (mkResponse 500 (error_body "Failed to add transaction to mempool")),
     logged (broadcast (set_file world_A MEMPOOL_FILE (usable (Some Malformed)))
                       (transaction_of (props_of pay_A_B_30)))
            "Error adding transaction to mempool:").
Proof.
  split; [split; vm_compute; reflexivity|].
  split; [reflexivity|]. split; [reflexivity|].
  apply (submitTxn_mempool_failure
           (set_file world_A MEMPOOL_FILE (usable (Some Malformed)))
           (props_of pay_A_B_30) Malformed).
  - split; vm_compute; reflexivity.
  - reflexivity.
  - reflexivity.
  - right. intros pool. discriminate.
Defined.

(** X17: when the mempool already holds 8 entries or more, a valid
    transaction is still broadcast and appended to the mempool file, and
    the handler then ends in a ReferenceError on [executeMempool]: no
    answer is sent, no block is made, the mempool keeps every entry. *)
Theorem submitTxn_on_a_full_mempool :
  forall (w : World) (bprops : list (string * JsVal)) (pool : list JsVal),
    passes_signature bprops ->
    verifyNonce (get_of_object bprops "sender") (get_of_object bprops "nonce") w
      = (Ret true, w) ->
    parses_to (mempool_file w) (JArr pool) ->
    can_write (mempool_file w) = true ->
    (8 <= List.length pool)%nat ->
    submitTxn (JObj bprops) w
    = (Throw (ReferenceError "executeMempool"),
       set_file (broadcast w (transaction_of bprops)) MEMPOOL_FILE
         (mkFile (Some (Encodes (JArr (pool ++ [transaction_of bprops]))))
                 true true)).
Proof.
  intros w bprops pool Hpass Hvalid Hmp Hw Hlen.
  past_signature Hpass.
  rewrite (bind_ret _ _ _ _ _ Hvalid). cbn [negb].
  fold (transaction_of bprops).
  unfold broadcastTransaction, emit. cbn [bind].
  fold (broadcast w (transaction_of bprops)).
  rewrite (bind_ret _ _ _ _ _
             (addToMempool_appends (broadcast w (transaction_of bprops)) pool
                (transaction_of bprops) Hmp Hw)).
  cbn [negb].
  set (w2 := set_file _ MEMPOOL_FILE _).
  assert (Hmp2 : parses_to (mempool_file w2)
                   (JArr (map json_image (pool ++ [transaction_of bprops])))).
  { eexists. repeat split. }
  rewrite (bind_ret _ _ _ _ _ (isMempoolFull_counts w2 _ Hmp2)).
  rewrite length_map, length_app. cbn [List.length].
  replace (8 <? Z.of_nat (List.length pool + 1)) with true
    by (symmetry; apply Z.ltb_lt; lia).
  reflexivity.
Qed.

Lemma submitTxn_on_a_full_mempool_witness :
  passes_signature (props_of ninth_body) /\
  verifyNonce (JStr "A") (JNum 1)
    (set_file world_A MEMPOOL_FILE (usable (Some (Encodes (JArr eight_bodies)))))
  = (Ret true,
     set_file world_A MEMPOOL_FILE (usable (Some (Encodes (JArr eight_bodies))))) /\
  parses_to (mempool_file
               (set_file world_A MEMPOOL_FILE
                  (usable (Some (Encodes (JArr eight_bodies))))))
            (JArr eight_bodies) /\
  (8 <= List.length eight_bodies)%nat /\
  submitTxn (JObj (props_of ninth_body))
    (set_file world_A MEMPOOL_FILE (usable (Some (Encodes (JArr eight_bodies)))))
  = (Throw (ReferenceError "executeMempool"),
     set_file
       (broadcast
          (set_file world_A MEMPOOL_FILE
             (usable (Some (Encodes (JArr eight_bodies)))))
          (transaction_of (props_of ninth_body)))
       MEMPOOL_FILE
       (mkFile (Some (Encodes (JArr (eight_bodies
                                       ++ [transaction_of (props_of ninth_body)]))))
               true true)).
Proof.
  split; [split; vm_compute; reflexivity|].
  split; [vm_compute; reflexivity|].
  split; [exists (Encodes (JArr eight_bodies)); repeat split; vm_compute; reflexivity|].
  split; [simpl; lia|].
  apply (submitTxn_on_a_full_mempool
           (set_file world_A MEMPOOL_FILE
              (usable (Some (Encodes (JArr eight_bodies)))))
           (props_of ninth_body) eight_bodies).
  - split; vm_compute; reflexivity.
  - vm_compute; reflexivity.
  - exists (Encodes (JArr eight_bodies)). repeat split; vm_compute; reflexivity.
  - reflexivity.
  - simpl; lia.
Defined.

(** ** Peer registration: the other ways out *)



(** X19: on an empty directory, a candidate whose signature verifies and
    that answers the probe is answered 200; the directory then holds one
    entry, made of the caller's address, the port and the public key of
    the request, and that directory is saved, then synced. *)
Theorem first_peer_is_registered :
  forall (verifyNodeSignature : JsVal -> JsVal -> JsVal -> JsVal -> bool)
         (pingNode : JsVal -> JsVal -> bool)
         (req : Request) (provided_port public_key sign : JsVal) (w : World),
    js_field (req_body req) "provided_port" = Ret provided_port ->
    js_field (req_body req) "public_key" = Ret public_key ->
    js_field (req_body req) "sign" = Ret sign ->
    verifyNodeSignature (req_ip req) provided_port sign public_key = true ->
    pingNode (req_ip req) provided_port = true ->
    peer_store w = [] ->
    registerNode verifyNodeSignature pingNode req w
    = (Ret (mkResponse 200 (message_body "Node registered successfully")),
       mkWorld (state_file w) (mempool_file w)
               [node_entry (req_ip req) provided_port public_key]
               (trace w ++
                [Pinged (req_ip req) provided_port;
                 PeersSaved [node_entry (req_ip req) provided_port public_key];
                 PeersSynced [node_entry (req_ip req) provided_port public_key]])).
Proof.
  intros verify ping req provided_port public_key sign w
         Hport Hkey Hsign Hverify Hping Hempty.
  unfold registerNode. rewrite Hport, Hkey, Hsign. cbn [bind lift].
  rewrite Hverify. cbn [negb]. unfold emit at 1. cbn [bind].
  rewrite Hping. cbn [negb].
  unfold loadPeerNodes at 1. cbn [bind peer_store lift]. rewrite Hempty.
  cbn [array_some app]. unfold savePeerNodes, syncPeerDataWithOtherNodes, emit.
  cbn [bind ret state_file mempool_file peer_store trace].
  unfold node_entry. now rewrite <- !app_assoc.
Qed.

Lemma first_peer_is_registered_witness :
  js_field (req_body newcomer_Y) "provided_port" = Ret (JNum 3002) /\
  js_field (req_body newcomer_Y) "public_key" = Ret (JStr "key-Y") /\
  js_field (req_body newcomer_Y) "sign" = Ret (JStr "sig-Y") /\
  always true (req_ip newcomer_Y) (JNum 3002) (JStr "sig-Y") (JStr "key-Y") = true /\
  reachable true (req_ip newcomer_Y) (JNum 3002) = true /\
  peer_store world_A = [] /\
  registerNode (always true) (reachable true) newcomer_Y world_A
  = (Ret (mkResponse 200 (message_body "Node registered successfully")),
     mkWorld (state_file world_A) (mempool_file world_A)
             [node_entry (req_ip newcomer_Y) (JNum 3002) (JStr "key-Y")]
             (trace world_A ++
              [Pinged (req_ip newcomer_Y) (JNum 3002);
               PeersSaved [node_entry (req_ip newcomer_Y) (JNum 3002) (JStr "key-Y")];
               PeersSynced [node_entry (req_ip newcomer_Y) (JNum 3002) (JStr "key-Y")]])).
Proof.
  split; [reflexivity|]. split; [reflexivity|]. split; [reflexivity|].
  split; [reflexivity|]. split; [reflexivity|]. split; [reflexivity|].
  apply (first_peer_is_registered (always true) (reachable true) newcomer_Y
           (JNum 3002) (JStr "key-Y") (JStr "sig-Y") world_A);
    reflexivity.
Defined.

(** X20: once the first entry of the directory is an object, no
    registration changes the directory any more, whatever the request,
    the signature check and the probe, and however the handler ends: the
    duplicate check finds every candidate already there. *)
Theorem directory_is_frozen :
  forall (verifyNodeSignature : JsVal -> JsVal -> JsVal -> JsVal -> bool)
         (pingNode : JsVal -> JsVal -> bool)
         (req : Request) (nprops : list (string * JsVal)) (others : list JsVal)
         (w w' : World) (r : Res Response),
    peer_store w = JObj nprops :: others ->
    registerNode verifyNodeSignature pingNode req w = (r, w') ->
    peer_store w' = peer_store w.
Proof.
  intros verify ping req nprops others w w' r Hstore.
  unfold registerNode, bind, lift.
  destruct (js_field (req_body req) "provided_port") as [port| |];
    try (intros [= _ <-]; reflexivity).
  destruct (js_field (req_body req) "public_key") as [key| |];
    try (intros [= _ <-]; reflexivity).
  destruct (js_field (req_body req) "sign") as [sign| |];
    try (intros [= _ <-]; reflexivity).
  destruct (verify (req_ip req) port sign key); cbn [negb];
    [|intros [= _ <-]; reflexivity].
  unfold emit, loadPeerNodes. cbn [peer_store].
  destruct (ping (req_ip req) port); cbn [negb];
    [|intros [= _ <-]; reflexivity].
  rewrite Hstore. cbn [peer_store array_some].
  destruct (node_matches_truthy (req_ip req) port key nprops) as (v & -> & Hv).
  cbn [res_bind]. rewrite Hv.
  intros [= _ <-]. cbn [peer_store]. reflexivity.
Qed.

Lemma directory_is_frozen_witness :
  peer_store world_one_peer = JObj (props_of peer_X) :: [] /\
  registerNode (always true) (reachable true) newcomer_Y world_one_peer
  = (fst (registerNode (always true) (reachable true) newcomer_Y world_one_peer),
     snd (registerNode (always true) (reachable true) newcomer_Y world_one_peer)) /\
  peer_store (snd (registerNode (always true) (reachable true) newcomer_Y
                     world_one_peer))
  = peer_store world_one_peer.
Proof.
  split; [reflexivity|]. split; [apply surjective_pairing|].
  apply (directory_is_frozen (always true) (reachable true) newcomer_Y
           (props_of peer_X) [] world_one_peer
           (snd (registerNode (always true) (reachable true) newcomer_Y
                   world_one_peer))
           (fst (registerNode (always true) (reachable true) newcomer_Y
                   world_one_peer))).
  - reflexivity.
  - apply surjective_pairing.
Defined.

Lemma files_kept_emit (e : Event) : maintains files_kept (emit e).
Proof. intros w w' r [= _ <-]. split; reflexivity. Qed.

Lemma files_kept_savePeerNodes (peers : list JsVal) :
  maintains files_kept (savePeerNodes peers).
Proof. intros w w' r [= _ <-]. split; reflexivity. Qed.

(** X21: registering a peer never touches the ledger state file or the
    mempool file, whatever the request and however the handler ends. *)
Theorem registerNode_keeps_the_files :
  forall (verifyNodeSignature : JsVal -> JsVal -> JsVal -> JsVal -> bool)
         (pingNode : JsVal -> JsVal -> bool)
         (req : Request) (w w' : World) (r : Res Response),
    registerNode verifyNodeSignature pingNode req w = (r, w') ->
    state_file w' = state_file w /\ mempool_file w' = mempool_file w.
Proof.
  intros verify ping req.
  change (maintains files_kept (registerNode verify ping req)).
  unfold registerNode, syncPeerDataWithOtherNodes.
  maintained_by files_kept_refl files_kept_trans
    ltac:(first [ apply files_kept_emit | apply files_kept_savePeerNodes ]).
Qed.

Lemma registerNode_keeps_the_files_witness :
  registerNode (always true) (reachable true) newcomer_Y world_A
  = (fst (registerNode (always true) (reachable true) newcomer_Y world_A),
     snd (registerNode (always true) (reachable true) newcomer_Y world_A)) /\
  state_file (snd (registerNode (always true) (reachable true) newcomer_Y world_A))
  = state_file world_A /\
  mempool_file (snd (registerNode (always true) (reachable true) newcomer_Y world_A))
  = mempool_file world_A.
Proof.
  split; [apply surjective_pairing|].
  apply (registerNode_keeps_the_files (always true) (reachable true) newcomer_Y
           world_A
           (snd (registerNode (always true) (reachable true) newcomer_Y world_A))
           (fst (registerNode (always true) (reachable true) newcomer_Y world_A))).
  apply surjective_pairing.
Defined.

(** ** The read endpoints *)

Lemma loadBlockchainState_falls_back (w : World) (text : Text) :
  data (state_file w) = Some text ->
  (can_read (state_file w) = false \/
   forall v : JsVal, JSON_parse text <> Ret v) ->
  loadBlockchainState w
  = (Ret (JObj []), logged w "Error loading blockchain state:").
Proof.
  intros Hd Hbad. unfold loadBlockchainState.
  rewrite (bind_ret _ _ w w tt)
    by (now apply ensureFileExists_present with text).
  unfold try_catch, bind, readFileSync, lift. cbn [file_at]. rewrite Hd.
  destruct (can_read (state_file w)); [|reflexivity].
  destruct Hbad as [Hbad|Hbad]; [discriminate|].
  destruct (JSON_parse text) as [v| |] eqn:Hp.
  - now destruct (Hbad v).
  - reflexivity.
  - destruct text; discriminate.
Qed.

(** X22: when the state file exists, [getState] always answers 200: with
    what the file parses to when it can be read and parsed, the world
    being unchanged, and with the empty object otherwise, the failure
    being only on the console. *)
Theorem getState_always_answers :
  forall (w : World) (text : Text),
    data (state_file w) = Some text ->
    exists (v : JsVal) (w' : World),
      getState w = (Ret (mkResponse 200 (JObj [("state", v)])), w') /\
      match JSON_parse text with
      | Ret x =>
          if can_read (state_file w)
          then v = x /\ w' = w
          else v = JObj [] /\ w' = logged w "Error loading blockchain state:"
      | _ => v = JObj [] /\ w' = logged w "Error loading blockchain state:"
      end.
Proof.
  intros w text Hd. unfold getState.
  destruct (can_read (state_file w)) eqn:Hr.
  - destruct (JSON_parse text) as [x| |] eqn:Hp.
    + exists x, w. split; [|split; reflexivity].
      rewrite (bind_ret _ _ w w x); [reflexivity|].
      apply loadBlockchainState_parses. now exists text.
    + exists (JObj []), (logged w "Error loading blockchain state:").
      split; [|split; reflexivity].
      assert (Hno : forall v : JsVal, JSON_parse text <> Ret v)
        by (intros v E; rewrite Hp in E; discriminate).
      rewrite (bind_ret _ _ _ _ _ (loadBlockchainState_falls_back w text Hd
                 (or_intror Hno))).
      reflexivity.
    + destruct text; discriminate.
  - exists (JObj []), (logged w "Error loading blockchain state:").
    split; [|destruct (JSON_parse text); split; reflexivity].
    rewrite (bind_ret _ _ _ _ _ (loadBlockchainState_falls_back w text Hd
               (or_introl Hr))).
    reflexivity.
Qed.

(** On the ledger of A the answer carries that ledger; on a state file
    that is not JSON it carries the empty object. *)
Lemma getState_always_answers_witness :
  (data (state_file world_A) = Some (Encodes ledger_A) /\
   exists (v : JsVal) (w' : World),
     getState world_A = (Ret (mkResponse 200 (JObj [("state", v)])), w') /\
     (v = ledger_A /\ w' = world_A)) /\
  (data (state_file (set_file world_A STATE_FILE (usable (Some Malformed))))
   = Some Malformed /\
   exists (v : JsVal) (w' : World),
     getState (set_file world_A STATE_FILE (usable (Some Malformed)))
     = (Ret (mkResponse 200 (JObj [("state", v)])), w') /\
     (v = JObj [] /\
      w' = logged (set_file world_A STATE_FILE (usable (Some Malformed)))
                  "Error loading blockchain state:")).
Proof.
  split.
  - split; [reflexivity|].
    exact (getState_always_answers world_A (Encodes ledger_A) eq_refl).
  - split; [reflexivity|].
    exact (getState_always_answers
             (set_file world_A STATE_FILE (usable (Some Malformed)))
             Malformed eq_refl).
Defined.

(** X23: an address that is not in the ledger but is the name of a
    property every object inherits ([constructor], [toString],
    [__proto__], ...) is found by the balance endpoint: the answer is 200
    with balance 0, not 404. *)
Theorem inherited_name_has_a_balance :
  forall (w : World) (props : list (string * JsVal)) (address : string),
    parses_to (state_file w) (JObj props) ->
    own props address = None ->
    inherited address = true ->
    checkBalanceByAdd address w
    = (Ret (mkResponse 200 (JObj [("address", JStr address); ("balance", JNum 0)])), w).
Proof.
  intros w props address Hst Hown Hin. unfold checkBalanceByAdd.
  rewrite (bind_ret _ _ w w (JObj props)) by (now apply loadBlockchainState_parses).
  unfold js_index, get_of_object. cbn [to_string res_bind].
  now rewrite Hown, Hin.
Qed.

Lemma inherited_name_has_a_balance_witness :
  parses_to (state_file world_A) (JObj (props_of ledger_A)) /\
  own (props_of ledger_A) "constructor" = None /\
  inherited "constructor" = true /\
  checkBalanceByAdd "constructor" world_A
  = (Ret (mkResponse 200 (JObj [("address", JStr "constructor");
                                ("balance", JNum 0)])), world_A).
Proof.
  split; [exists (Encodes ledger_A); repeat split|].
  split; [reflexivity|]. split; [reflexivity|].
  apply (inherited_name_has_a_balance world_A (props_of ledger_A) "constructor").
  - exists (Encodes ledger_A). repeat split.
  - reflexivity.
  - reflexivity.
Defined.

(** X24: a state file that holds the JSON text [null] is returned as
    [null] by [loadBlockchainState], and indexing it throws: the balance
    endpoint and the nonce check both end in a TypeError, for every
    address, sender and nonce, and the error is not caught. *)
Theorem null_ledger_throws :
  forall (w : World) (address : string) (sender nonce : JsVal),
    parses_to (state_file w) JNull ->
    checkBalanceByAdd address w = (Throw TypeError, w) /\
    verifyNonce sender nonce w = (Throw TypeError, w).
Proof.
  intros w address sender nonce Hst. split.
  - unfold checkBalanceByAdd.
    rewrite (bind_ret _ _ w w JNull) by (now apply loadBlockchainState_parses).
    reflexivity.
  - unfold verifyNonce.
    rewrite (bind_ret _ _ w w JNull) by (now apply loadBlockchainState_parses).
    reflexivity.
Qed.

Lemma null_ledger_throws_witness :
  parses_to (state_file world_null_state) JNull /\
  checkBalanceByAdd "A" world_null_state = (Throw TypeError, world_null_state) /\
  verifyNonce (JStr "A") (JNum 1) world_null_state
  = (Throw TypeError, world_null_state).
Proof.
  split; [exists (Encodes JNull); repeat split|].
  apply (null_ledger_throws world_null_state "A" (JStr "A") (JNum 1)).
  exists (Encodes JNull). repeat split.
Defined.

Lemma only_reads_refl (w : World) : only_reads w w.
Proof. split; [apply ledger_kept_refl|split; reflexivity]. Qed.

Lemma only_reads_trans (a b c : World) :
  only_reads a b -> only_reads b c -> only_reads a c.
Proof.
  intros (H1 & H2 & H3) (H4 & H5 & H6).
  split; [now apply ledger_kept_trans with b|split; congruence].
Qed.

Lemma only_reads_loadBlockchainState : maintains only_reads loadBlockchainState.
Proof.
  intros w w' r Hrun. split; [now apply (ledger_kept_loadBlockchainState w w' r)|].
  revert Hrun. destruct w as [[d rd wr] mf ps tr].
  unfold loadBlockchainState, ensureFileExists, bind, existsSync, writeFileSync,
    try_catch, readFileSync, lift, console_error, emit, ret.
  destruct d as [text|]; [|destruct wr]; destruct rd;
    try destruct text; cbn; intros E; inversion E; subst; split; reflexivity.
Qed.

(** X25: the two read endpoints write nothing: whatever they answer, and
    also when they throw, the mempool file and the peer directory are as
    they were, and so is the state file when it existed. *)
Theorem read_endpoints_only_read :
  forall (address : string) (w w' : World) (r : Res Response),
    (checkBalanceByAdd address w = (r, w') \/ getState w = (r, w')) ->
    (data (state_file w) <> None -> state_file w' = state_file w) /\
    mempool_file w' = mempool_file w /\
    peer_store w' = peer_store w.
Proof.
  intros address w w' r [Hrun|Hrun]; revert w w' r Hrun.
  - change (maintains only_reads (checkBalanceByAdd address)).
    unfold checkBalanceByAdd.
    maintained_by only_reads_refl only_reads_trans
      ltac:(apply only_reads_loadBlockchainState).
  - change (maintains only_reads getState).
    unfold getState.
    maintained_by only_reads_refl only_reads_trans
      ltac:(apply only_reads_loadBlockchainState).
Qed.

Lemma read_endpoints_only_read_witness :
  (checkBalanceByAdd "A" world_A
   = (fst (checkBalanceByAdd "A" world_A), snd (checkBalanceByAdd "A" world_A)) \/
   getState world_A
   = (fst (checkBalanceByAdd "A" world_A), snd (checkBalanceByAdd "A" world_A))) /\
  ((data (state_file world_A) <> None ->
    state_file (snd (checkBalanceByAdd "A" world_A)) = state_file world_A) /\
   mempool_file (snd (checkBalanceByAdd "A" world_A)) = mempool_file world_A /\
   peer_store (snd (checkBalanceByAdd "A" world_A)) = peer_store world_A).
Proof.
  split; [left; apply surjective_pairing|].
  apply (read_endpoints_only_read "A" world_A
           (snd (checkBalanceByAdd "A" world_A))
           (fst (checkBalanceByAdd "A" world_A))).
  left. apply surjective_pairing.
Defined.

(** X26: [loadBlockchainState] is stable: once it has returned a value,
    calling it again returns the same value and leaves the state file as
    the first call left it. *)
Theorem loadBlockchainState_again :
  forall (w w1 : World) (v : JsVal),
    loadBlockchainState w = (Ret v, w1) ->
    exists w2 : World,
      loadBlockchainState w1 = (Ret v, w2) /\
      state_file w2 = state_file w1.
Proof.
  intros [[d rd wr] mf ps tr] w1 v.
  unfold loadBlockchainState, ensureFileExists, bind, existsSync, writeFileSync,
    try_catch, readFileSync, lift, console_error, emit, ret.
  destruct d as [text|]; [|destruct wr]; destruct rd;
    try destruct text; cbn; intros E; inversion E; subst;
    eexists; split; reflexivity.
Qed.

Lemma loadBlockchainState_again_witness :
  loadBlockchainState world_one_peer
  = (Ret (JObj []),
     set_file world_one_peer STATE_FILE (usable (Some (Encodes (JObj []))))) /\
  exists w2 : World,
    loadBlockchainState
      (set_file world_one_peer STATE_FILE (usable (Some (Encodes (JObj [])))))
    = (Ret (JObj []), w2) /\
    state_file w2
    = state_file (set_file world_one_peer STATE_FILE
                    (usable (Some (Encodes (JObj []))))).
Proof.
  split; [reflexivity|].
  apply (loadBlockchainState_again world_one_peer
           (set_file world_one_peer STATE_FILE (usable (Some (Encodes (JObj [])))))
           (JObj [])).
  reflexivity.
Defined.

(** ** The mempool only grows *)

Lemma bind_inv {A B : Type} (m : M A) (k : A -> M B) (w w' : World) (r : Res B) :
  bind m k w = (r, w') ->
  (exists (a : A) (w1 : World), m w = (Ret a, w1) /\ k a w1 = (r, w')) \/
  (exists r0 : Res A, m w = (r0, w')).
Proof.
  unfold bind. destruct (m w) as [[a|e|] w1].
  - intros H. left. now exists a, w1.
  - intros [= _ <-]. right. now eexists.
  - intros [= _ <-]. right. now eexists.
Qed.

Lemma lift_inv {A : Type} (x : Res A) (w w' : World) (r : Res A) :
  lift x w = (r, w') -> w' = w.
Proof. now intros [= _ <-]. Qed.

Lemma addToMempool_cannot_write (w : World) (pool : list JsVal) (tx : JsVal) :
  parses_to (mempool_file w) (JArr pool) ->
  can_write (mempool_file w) = false ->
  addToMempool tx w
  = (Ret false, logged w "Error adding transaction to mempool:").
Proof.
  intros (text & Hd & Hr & Hp) Hw. unfold addToMempool.
  rewrite (bind_ret _ _ w w tt)
    by (now apply ensureFileExists_present with text).
  unfold try_catch, bind, readFileSync, writeFileSync, lift, ret.
  cbn [file_at]. rewrite Hd, Hr, Hp. cbn [js_push JSON_stringify serialisable].
  now rewrite Hw.
Qed.

Lemma only_reads_verifyNonce (sender nonce : JsVal) :
  maintains only_reads (verifyNonce sender nonce).
Proof.
  unfold verifyNonce.
  maintained_by only_reads_refl only_reads_trans
    ltac:(apply only_reads_loadBlockchainState).
Qed.

Lemma mempool_kept_isMempoolFull : maintains mempool_kept isMempoolFull.
Proof.
  intros [sf [d rd wr] ps tr] w' r.
  unfold isMempoolFull, ensureFileExists, default_content, bind, existsSync,
    writeFileSync, try_catch, readFileSync, lift, console_error, emit, ret.
  destruct d as [text|].
  - destruct rd; [destruct text as [| |v]|]; cbn.
    + intros E _; inversion E; reflexivity.
    + intros E _; inversion E; reflexivity.
    + destruct (js_length (json_image v)) as [len| |];
        [destruct (js_gt_num len 8)| |];
        intros E _; inversion E; reflexivity.
    + intros E _; inversion E; reflexivity.
  - intros _ Hpresent. now destruct Hpresent.
Qed.

(** X27: submitting a transaction never removes or reorders what the
    mempool holds: whatever the request and however the handler ends, a
    mempool file that held a JSON array is afterwards either as it was or
    holds the same entries followed by one new transaction. *)
Theorem submitTxn_never_drops :
  forall (req_body : JsVal) (w w' : World) (r : Res Response)
         (pool : list JsVal),
    submitTxn req_body w = (r, w') ->
    parses_to (mempool_file w) (JArr pool) ->
    mempool_file w' = mempool_file w \/
    exists tx : JsVal,
      mempool_file w' = mkFile (Some (Encodes (JArr (pool ++ [tx])))) true true.
Proof.
  intros req_body w w' r pool Hrun Hmp. unfold submitTxn in Hrun.
  (* the five fields *)
  do 5 (apply bind_inv in Hrun;
        destruct Hrun as [(?f & ?w1 & Hstep & Hrun)|(r0 & Hstop)];
        [apply lift_inv in Hstep; subst
        |apply lift_inv in Hstop; subst; now left]).
  match type of Hrun with
  | (if ?c then _ else _) _ = _ => destruct c
  end; [injection Hrun as _ <-; now left|].
  (* the signature *)
  apply bind_inv in Hrun;
    destruct Hrun as [(ok & w1 & Hstep & Hrun)|(r0 & Hstop)];
    [apply lift_inv in Hstep; subst
    |apply lift_inv in Hstop; subst; now left].
  destruct (negb ok); [injection Hrun as _ <-; now left|].
  (* the nonce *)
  apply bind_inv in Hrun.
  destruct Hrun as [(valid & w1 & Hstep & Hrun)|(r0 & Hstop)];
    [|left; now apply (only_reads_verifyNonce _ _ _ _ _ Hstop)].
  apply only_reads_verifyNonce in Hstep. destruct Hstep as (_ & Hsame & _).
  destruct (negb valid); [injection Hrun as _ <-; now left|].
  (* the broadcast *)
  apply bind_inv in Hrun.
  destruct Hrun as [([] & w2 & Hstep & Hrun)|(r0 & Hstop)];
    [|injection Hstop as _ <-; now left].
  injection Hstep as <-.
  (* the mempool *)
  set (tx := make_transaction f f0 f1 f2 f3) in *.
  set (w2 := mkWorld _ _ _ _) in *.
  assert (Hmp2 : parses_to (mempool_file w2) (JArr pool))
    by (subst w2; cbn [mempool_file]; now rewrite Hsame).
  assert (Hfile2 : mempool_file w2 = mempool_file w)
    by (subst w2; cbn [mempool_file]; exact Hsame).
  apply bind_inv in Hrun.
  destruct (can_write (mempool_file w2)) eqn:Hw.
  - rewrite (addToMempool_appends w2 pool tx Hmp2 Hw) in Hrun.
    destruct Hrun as [(added & w3 & Hstep & Hrun)|(r0 & Hstop)];
      [|injection Hstop as _ <-; right; now exists tx].
    injection Hstep as <- <-. cbn [negb] in Hrun.
    right. exists tx.
    match type of Hrun with
    | _ ?world = _ => set (w3 := world) in *
    end.
    assert (Hpresent : data (mempool_file w3) <> None) by discriminate.
    apply bind_inv in Hrun.
    destruct Hrun as [(full & w4 & Hstep & Hrun)|(r0 & Hstop)];
      [|now rewrite (mempool_kept_isMempoolFull _ _ _ Hstop Hpresent)].
    apply mempool_kept_isMempoolFull in Hstep. specialize (Hstep Hpresent).
    apply bind_inv in Hrun.
    destruct Hrun as [([] & w5 & Hstep5 & Hrun)|(r0 & Hstop)].
    + injection Hrun as _ <-.
      destruct full; [discriminate Hstep5|].
      injection Hstep5 as <-. exact Hstep.
    + destruct full; injection Hstop as _ <-; exact Hstep.
  - rewrite (addToMempool_cannot_write w2 pool tx Hmp2 Hw) in Hrun.
    destruct Hrun as [(added & w3 & Hstep & Hrun)|(r0 & Hstop)];
      [|injection Hstop as _ <-; now left].
    injection Hstep as <- <-. cbn [negb] in Hrun.
    injection Hrun as _ <-. now left.
Qed.

Lemma submitTxn_never_drops_witness :
  submitTxn pay_A_B_30 world_A
  = (fst (submitTxn pay_A_B_30 world_A), snd (submitTxn pay_A_B_30 world_A)) /\
  parses_to (mempool_file world_A) (JArr []) /\
  (mempool_file (snd (submitTxn pay_A_B_30 world_A)) = mempool_file world_A \/
   exists tx : JsVal,
     mempool_file (snd (submitTxn pay_A_B_30 world_A))
     = mkFile (Some (Encodes (JArr ([] ++ [tx])))) true true).
Proof.
  split; [apply surjective_pairing|].
  split; [exists (Encodes (JArr [])); repeat split|].
  apply (submitTxn_never_drops pay_A_B_30 world_A
           (snd (submitTxn pay_A_B_30 world_A))
           (fst (submitTxn pay_A_B_30 world_A)) []).
  - apply surjective_pairing.
  - exists (Encodes (JArr [])). repeat split.
Defined.

(** ** A mempool file that cannot be created *)

(** X28: when the mempool file is absent and cannot be created, neither
    [addToMempool] nor [isMempoolFull] returns [false]: the failure of the
    creating write, made before their [try] block, reaches the caller,
    and nothing is changed or reported. *)
Theorem mempool_creation_failure_propagates :
  forall (tx : JsVal) (w : World),
    data (mempool_file w) = None ->
    can_write (mempool_file w) = false ->
    addToMempool tx w = (Throw SystemError, w) /\
    isMempoolFull w = (Throw SystemError, w).
Proof.
  intros tx w Hd Hw.
  unfold addToMempool, isMempoolFull, ensureFileExists, bind, existsSync,
    writeFileSync.
  cbn [file_at]. rewrite Hd. cbn [negb]. rewrite Hw. split; reflexivity.
Qed.

Lemma mempool_creation_failure_propagates_witness :
  data (mempool_file (set_file world_A MEMPOOL_FILE (mkFile None true false))) = None /\
  can_write (mempool_file (set_file world_A MEMPOOL_FILE (mkFile None true false)))
  = false /\
  addToMempool pay_A_B_30 (set_file world_A MEMPOOL_FILE (mkFile None true false))
  = (Throw SystemError, set_file world_A MEMPOOL_FILE (mkFile None true false)) /\
  isMempoolFull (set_file world_A MEMPOOL_FILE (mkFile None true false))
  = (Throw SystemError, set_file world_A MEMPOOL_FILE (mkFile None true false)).
Proof.
  split; [reflexivity|]. split; [reflexivity|].
  apply (mempool_creation_failure_propagates pay_A_B_30
           (set_file world_A MEMPOOL_FILE (mkFile None true false)));
    reflexivity.
Defined.
